(* ===== verification/_CoqProject ===== *)
-Q . S2P
Prelude.v
PyCore.v
Hyperparams.v
Naming.v
World.v
Persistence.v
Experiment.v
Cleanup.v
Output.v
Runner.v
Loop.v
Concurrency.v
