(* ===== verification/Prelude.v ===== *)
(** * DeepSphere experiment runner: a verification development

    The program is [src/results_scnn_with_augmentation.py], a 145-line
    Python script that sweeps spherical-CNN training runs over triples
    [(sigma, order, sigma_noise)] and appends each run's test error to a
    per-[sigma] NumPy archive.  Its parts, how they interact, and where
    each is modelled:

    - Python runtime ([PyCore.v]): the built-ins the script relies on at
      their CPython semantics: [str] of an [int]; [int] of a [float]
      (truncation; NaN and infinities raise); [int] of a [str] (whitespace,
      sign, PEP 515 underscores, [ValueError]); [float] of a [str]
      (CPython's grammar with [inf]/[nan], exponents and underscores,
      correctly rounded); [int / int] with CPython's fast path and
      [OverflowError]; [float / float] with [ZeroDivisionError]; the
      promotion of an [int] to [float].  Floats are the kernel's binary64
      floats ([PrimFloat]) rounded as SpecFloat does, so a witness
      computes what CPython computes.  [PyVal] holds the Python values
      that reach the dictionary [params].
    - Hyper-parameters ([Hyperparams.v], [single_experiment] lines
      14-15, 29-103): the schedule [nsides] chosen by [order], the
      dictionary built by successive insertions (a [gmap string PyVal]),
      [eval_frequency] in binary64 as the code computes it, and the
      spec's per-order table.
    - Naming ([Naming.v], lines 17-18, 108-109, 131, 138-141): the
      experiment name, the summary and checkpoint directories, and the
      archive path built with [os.path.join].
    - The world ([World.v]): a state-and-exception monad over a
      file-system map, standard output and the trace of collaborator calls,
      with [shutil.rmtree(..., ignore_errors=True)],
      [os.makedirs(..., exist_ok=True)], [os.path.isfile], [np.load],
      [np.savez] (which truncates the archive before converting the rows)
      and NumPy's float64 coercion of a list of records; a collaborator's
      call prints what it prints, and the trainer's also reads and writes
      the file system; footprint lemmas say which paths a program may
      change.
    - Result persistence ([Persistence.v], lines 138-145): the
      read-modify-rewrite of the archive of one [sigma].
    - One experiment ([Experiment.v], lines 13-119): [single_experiment]
      as a program of the monad, its [scnn] collaborators a typeclass
      interface ([Collaborators]: results, printed lines, and a [fit] that
      writes only under its model's [summaries/] and [checkpoints/]
      directories) and the float [repr] another ([FloatRepr]); the
      datasets of [scnn.data] follow the spec.
    - The cleanup before training ([Cleanup.v], lines 105-111): runs from
      two worlds related outside the experiment's two trees, compared
      step by step ([rel_run], composed through [bind]).
    - The standard output ([Output.v]): programs that only append to it
      ([out_appends]) or print nothing ([out_same]), composed through
      [bind]; [single_experiment] appends, [persist_result] and
      [os.makedirs] print nothing.
    - The main program ([Runner.v], lines 122-145): the work list from
      [sys.argv] or [pgrid] ([GridSource]), [os.makedirs], and the loop.
      The loop is proved against [ExperimentRunner], whose laws are that
      an experiment changes nothing under [results/], returns only for an
      [order] NumPy stores as a float64, and only appends to the standard
      output; [single_experiment_runner] discharges them from the lemmas
      of [Experiment] and [Output] about [single_experiment].
    - The loop as a transition system ([Loop.v], lines 134-145): one
      transition per action (announce, run, store), with [Done] and
      [Raised] final configurations, for invariants that hold at every
      point of a run, an interrupted one included.
    - Two concurrent runs ([Concurrency.v], lines 140-145 and spec
      section 7): the archive update split into its read and its rewrite,
      interleaved by a schedule, refined to an abstract list archive.

    What the theorems show (in the component files):
    - [Hyperparams]: each supported [order] has a schedule of 4, 5 or 6
      levels halving at each step and capped at the last; an unsupported
      [order] raises [ValueError]; the dictionary refines the spec's table
      (same keys, same values); every architecture list has one entry per
      level; [eval_frequency], computed in binary64, equals the exact
      floor for every training set up to [eval_bound] samples and is 0 on
      small ones.
    - [Naming]: the name parses back into its fields, so distinct
      experiments get distinct directories.
    - [World]: [os.makedirs('results/scnn/', exist_ok=True)] on every
      branch, errors included.
    - [Persistence]: the update appends one record (its [order] as a
      float64) and writes only its own archive; a repeated record is
      duplicated; a malformed archive is lost (truncated by [np.savez]
      before its [ValueError]) and every later update raises [KeyError].
    - [Experiment]: data is loaded before an unsupported [order] raises;
      a successful run's output (the script's lines between the
      collaborators'), trace, result, and the file system [fit] is given
      (the stale trees removed) and leaves; a run writes only inside its
      own two trees.
    - [Cleanup]: files left in the two trees by an earlier run change
      nothing: same result, output and calls, and the same file system
      once the run returns.
    - [Runner]: whatever its outcome, the script leaves in every archive
      the records of a prefix of the work list, in order (all of it on
      return), each with a test error its experiment returned; with three
      arguments exactly one record is written; one or two arguments raise
      [IndexError]; a run that returns has printed, in the order of the
      work list, each launch line followed by that experiment's output.
    - [Loop]: at every point of a run the archive directory exists and
      every archive is well formed (rule induction).
    - [Concurrency]: of the six interleavings of two updates of one
      archive, the two serial ones keep both records and the other four
      keep only the last writer's (the spec's lost update).

    Bounds: the [eval_frequency] equivalence is proved for
    [0 <= N <= eval_bound = 2^16] training samples by evaluating both sides
    on every such [N]; the experiments ("40sim": 40 maps, 2 classes, at
    most [12 * 4^2] patches each) have at most 15360.  [float] of a [str]
    short-cuts decimal exponents beyond +-400, which certainly overflow or
    underflow binary64.  No definition uses fuel: every function is
    structural.

    Not modelled: the neural network, its training and the data pipeline
    of [scnn] (an external library with no source here: its results, its
    output and [fit]'s writes are the parameters of the [Collaborators]
    interface, with the laws DeepSphere's models keep, the script run from
    the repository root), [pgrid] (an external module: the [GridSource]
    interface, silent), NumPy's [.npz] byte format (an archive is its
    named arrays) and its object-array fallback for integers beyond
    float64 range (the model raises [OverflowError]; the loop's theorems
    only store orders that fit), CPython's shortest float [repr] (the
    theorems hold for any [repr] without ['_'] or ['/']), and the text of
    [float] literals beyond ASCII.

    This file, the prelude, holds what every component shares: Python's
    exceptions, the result monad with its notation in [py_scope], the
    development's tactics and hint databases, and generic lemmas on
    strings and maps. *)

From stdpp Require Export base list gmap strings.
From Stdlib Require Export ZArith Lia Floats Ascii DecimalString DecimalZ.

#[global] Set Warnings "-inexact-float".

(** ** Python exceptions

    The exceptions the script can raise itself or receive from the Python
    runtime; [CollabError] carries an exception raised inside an external
    collaborator ([scnn], NumPy), which the script never catches. *)
Inductive PyExc :=
| ValueError (msg : string)
| OverflowError (msg : string)
| ZeroDivisionError (msg : string)
| KeyError (key : string)
| TypeError (msg : string)
| FileExistsError (path : string)
| FileNotFoundError (path : string)
| NotADirectoryError (path : string)
| IsADirectoryError (path : string)
| IndexError (msg : string)
| CollabError (msg : string).

(** ** The result monad: a computation that returns or raises *)

Abbreviation res A := (sum PyExc A).

Declare Scope py_scope.
Delimit Scope py_scope with py.

Notation "x <-? c ;; k" :=
  (match c with inl e => inl e | inr x => k end)
  (at level 100, c at next level, right associativity) : py_scope.

Open Scope py_scope.

(** [map] over a list with a function that may raise: the first exception
    is propagated. *)
Fixpoint res_map {A B} (f : A -> res B) (l : list A) : res (list B) :=
  match l with
  | [] => inr []
  | x :: l' => y <-? f x ;; ys <-? res_map f l' ;; inr (y :: ys)
  end.

Lemma res_map_inr {A B} (f : A -> B) (l : list A) :
  res_map (fun x => inr (f x)) l = inr (map f l).
Proof. induction l as [|x l IH]; simpl; [done|]. by rewrite IH. Qed.

(** ** Tactics *)

Ltac invc H := inversion H; subst; clear H.

(** Case split on every result match in the goal, naming the equation. *)
Ltac res_cases :=
  repeat match goal with
  | |- context [match ?c with inl _ => _ | inr _ => _ end] =>
      let E := fresh "E" in destruct c eqn:E
  end.

Create HintDb deepsphere.
Create Rewrite HintDb deepsphere_rw.

(** ** Bounded exhaustive checking

    [all_in_range f lo n] tests [f] on the [n] integers from [lo] on,
    counting in [Z] so that the kernel's evaluation is linear in [n].  A
    test that passes holds on the whole interval. *)
Fixpoint all_in_range (f : Z -> bool) (lo : Z) (n : nat) : bool :=
  match n with
  | O => true
  | S n' => f lo && all_in_range f (lo + 1)%Z n'
  end.

Lemma all_in_range_spec (f : Z -> bool) (n : nat) :
  forall lo, all_in_range f lo n = true ->
  forall x, (lo <= x < lo + Z.of_nat n)%Z -> f x = true.
Proof.
  induction n as [|n IH]; intros lo Hall x Hx; simpl in *; [lia|].
  apply andb_prop in Hall as [Hlo Hrest].
  destruct (Z.eq_dec x lo) as [->|Hne]; [done|].
  apply (IH (lo + 1)%Z); [done | lia].
Qed.

(** ** Strings

    [has_char c s] tests whether [c] occurs in [s]; [split_on c s] cuts [s]
    at every [c], as Python's [s.split(c)]; [strip_suffix suf s] removes a
    trailing [suf]. *)
Fixpoint has_char (c : Ascii.ascii) (s : string) : bool :=
  match s with
  | EmptyString => false
  | String x r => Ascii.eqb x c || has_char c r
  end.

Fixpoint split_on (c : Ascii.ascii) (s : string) : list string :=
  match s with
  | EmptyString => [EmptyString]
  | String x r =>
      let rest := split_on c r in
      if Ascii.eqb x c then EmptyString :: rest
      else match rest with
           | w :: ws => String x w :: ws
           | [] => [String x EmptyString]
           end
  end.

Fixpoint strip_suffix (suf s : string) : option string :=
  if String.eqb s suf then Some EmptyString
  else match s with
       | EmptyString => None
       | String x r => option_map (String x) (strip_suffix suf r)
       end.

Lemma string_app_cons (x : Ascii.ascii) (a b : string) :
  String x a +:+ b = String x (a +:+ b).
Proof. reflexivity. Qed.

Lemma string_app_nil (b : string) : EmptyString +:+ b = b.
Proof. reflexivity. Qed.

Lemma has_char_app (c : Ascii.ascii) (a b : string) :
  has_char c (a +:+ b) = has_char c a || has_char c b.
Proof. induction a as [|x a IH]; simpl; [done|]. by rewrite IH, orb_assoc. Qed.

Lemma string_length_app (a b : string) :
  String.length (a +:+ b) = (String.length a + String.length b)%nat.
Proof. induction a; simpl; auto. Qed.

Lemma string_app_assoc (a b c : string) : a +:+ (b +:+ c) = (a +:+ b) +:+ c.
Proof. induction a as [|x a IH]; [done|]. by rewrite !string_app_cons, IH. Qed.

Lemma split_on_no_char (c : Ascii.ascii) (a : string) :
  has_char c a = false -> split_on c a = [a].
Proof.
  induction a as [|x a IH]; simpl; [done|]. intros [Hx Ha]%orb_false_iff.
  by rewrite Hx, IH.
Qed.

Lemma split_on_app (c : Ascii.ascii) (a b : string) :
  has_char c a = false -> split_on c (a +:+ String c b) = a :: split_on c b.
Proof.
  induction a as [|x a IH]; simpl.
  - by rewrite Ascii.eqb_refl.
  - intros [Hx Ha]%orb_false_iff. by rewrite Hx, IH.
Qed.

(** A field [a +:+ w] followed by the separator [c] and the rest. *)
Lemma split_on_field (c : Ascii.ascii) (a w b : string) :
  has_char c a = false -> has_char c w = false ->
  split_on c (a +:+ (w +:+ String c b)) = (a +:+ w) :: split_on c b.
Proof.
  intros Ha Hw. rewrite string_app_assoc. apply split_on_app.
  by rewrite has_char_app, Ha, Hw.
Qed.

Lemma strip_suffix_unfold (suf s : string) :
  strip_suffix suf s =
  if String.eqb s suf then Some EmptyString
  else match s with
       | EmptyString => None
       | String x r => option_map (String x) (strip_suffix suf r)
       end.
Proof. by destruct s. Qed.

Lemma strip_suffix_app (suf x : string) : strip_suffix suf (x +:+ suf) = Some x.
Proof.
  induction x as [|a x IH]; rewrite strip_suffix_unfold.
  - by rewrite String.eqb_refl.
  - destruct (String.eqb_spec (String a x +:+ suf) suf) as [Heq|_].
    + apply (f_equal String.length) in Heq. simpl in Heq.
      rewrite string_length_app in Heq. lia.
    + simpl. by rewrite IH.
Qed.

Lemma strip_suffix_some (suf s x : string) : strip_suffix suf s = Some x -> s = x +:+ suf.
Proof.
  revert x. induction s as [|a s IH]; intros x; rewrite strip_suffix_unfold.
  - destruct (String.eqb_spec "" suf) as [<-|]; [by intros [= <-] | done].
  - destruct (String.eqb_spec (String a s) suf) as [<-|]; [by intros [= <-]|].
    destruct (strip_suffix suf s) as [y|] eqn:E; [|done]. intros [= <-].
    by rewrite (IH y eq_refl).
Qed.

#[export] Hint Rewrite has_char_app string_length_app strip_suffix_app : deepsphere_rw.

(** ** Maps built from association lists *)

(** Two lists with the same keys in the same order build maps with the
    same keys, related value by value. *)
Lemma list_to_map_Forall2 {A B} (R : A -> B -> Prop)
    (l1 : list (string * A)) (l2 : list (string * B)) :
  Forall2 (fun x y => x.1 = y.1 /\ R x.2 y.2) l1 l2 ->
  map_Forall2 (fun _ => R) (list_to_map l1 : gmap string A) (list_to_map l2 : gmap string B).
Proof.
  induction 1 as [|[k1 a] [k2 b] l1 l2 [Hk Hr] _ IH]; intros i; cbn in *; subst;
    [rewrite !lookup_empty; constructor|].
  destruct (decide (k2 = i)) as [<-|Hne].
  - rewrite !lookup_insert_eq. by constructor.
  - rewrite !lookup_insert_ne by done. apply IH.
Qed.
