(* ===== verification/PyCore.v ===== *)
(** * The Python runtime operations the script relies on

    Python values that the script stores in its dictionaries, and the
    built-in operations it applies to numbers, at CPython's semantics:
    - [str(n)] of an [int]: its decimal representation ([py_str_int]);
    - [float(n)], the promotion of an [int] ([py_float_of_int]);
    - [a / b] on two [int]s, the correctly rounded quotient
      ([py_truediv_int]), and on two [float]s ([py_truediv_float]);
    - [int(x)] of a [float], truncation toward zero ([py_int_of_float]).
    Floats are binary64 ([PrimFloat.float]); the conversions go through
    SpecFloat, whose rounding is IEEE-754 round-to-nearest-even. *)

From S2P Require Import Prelude.

Open Scope Z_scope.

(** ** Python values

    The values the script puts in [params] and in result records:
    [None], booleans, integers, floats, strings and lists. *)
Inductive PyVal :=
| PNone
| PBool (b : bool)
| PInt (z : Z)
| PFloat (f : float)
| PStr (s : string)
| PList (l : list PyVal).

(** ** [str] of an [int] *)

(** CPython's [int.__repr__]: the decimal digits, with a leading [-] for a
    negative number and ["0"] for zero. *)
Definition py_str_int (z : Z) : string :=
  NilEmpty.string_of_int (Z.to_int z).

(** The reading of a decimal integer literal, inverse of [py_str_int]. *)
Definition parse_int_repr (s : string) : option Z :=
  option_map Z.of_int (NilEmpty.int_of_string s).

(** ** Numeric conversions and divisions *)

(** An integer as an exact (not yet rounded) SpecFloat value. *)
Definition sf_of_Z (z : Z) : spec_float :=
  match z with
  | Z0 => S754_zero false
  | Zpos p => S754_finite false p 0
  | Zneg p => S754_finite true p 0
  end.

(** [float(n)]: round to nearest even; [OverflowError] when the rounded
    value is out of range. *)
Definition py_float_of_int (z : Z) : res float :=
  match SpecFloat.binary_normalize FloatOps.prec FloatOps.emax z 0 false with
  | S754_infinity _ => inl (OverflowError "int too large to convert to float")
  | r => inr (FloatOps.SF2Prim r)
  end.

(** A non-negative integer below [2^53] converted exactly, as C's
    [(double)] cast of a small [long] does. *)
Definition float_of_small (n : Z) : float :=
  PrimFloat.of_uint63 (Uint63Axioms.of_Z n).

(** [a / b] on [int]s, CPython's [long_true_divide]: when both magnitudes
    are below [2^53] (the "fast path"), both are converted exactly and
    divided in binary64, negating when the signs differ, so [0 / -b] is
    [-0.0]; otherwise the exact quotient is rounded once.  Either way the
    result is the correctly rounded quotient; [OverflowError] when it is
    out of range. *)
Definition py_truediv_int (a b : Z) : res float :=
  if b =? 0 then inl (ZeroDivisionError "division by zero")
  else if (Z.abs a <? 2 ^ 53) && (Z.abs b <? 2 ^ 53) then
    let x := PrimFloat.div (float_of_small (Z.abs a)) (float_of_small (Z.abs b)) in
    inr (if xorb (a <? 0) (b <? 0) then PrimFloat.opp x else x)
  else match SpecFloat.SFdiv FloatOps.prec FloatOps.emax (sf_of_Z a) (sf_of_Z b) with
       | S754_infinity _ =>
           inl (OverflowError "integer division result too large for a float")
       | r => inr (FloatOps.SF2Prim r)
       end.

(** [x / y] on [float]s: a zero divisor (either sign) raises; otherwise the
    IEEE quotient, which may be infinite. *)
Definition py_truediv_float (x y : float) : res float :=
  if PrimFloat.eqb y PrimFloat.zero then inl (ZeroDivisionError "float division by zero")
  else inr (PrimFloat.div x y).

(** [int(x)] on a [float]: truncation toward zero; NaN and the infinities
    raise. A finite float is [± m * 2^e]; shifting the positive mantissa
    right floors it, which is truncation for a non-negative number. *)
Definition py_int_of_float (x : float) : res Z :=
  match FloatOps.Prim2SF x with
  | S754_zero _ => inr 0
  | S754_infinity _ => inl (OverflowError "cannot convert float infinity to integer")
  | S754_nan => inl (ValueError "cannot convert float NaN to integer")
  | S754_finite s m e =>
      let v := Z.shiftl (Zpos m) e in inr (if s then - v else v)
  end.

(** ** Lemmas on [str] of an [int] *)

(** The characters [str(n)] can contain: ASCII digits and the minus sign. *)
Definition int_repr_char (c : Ascii.ascii) : bool :=
  Ascii.eqb c "-"%char || ((48 <=? Ascii.nat_of_ascii c)%nat && (Ascii.nat_of_ascii c <=? 57)%nat).

Lemma string_of_uint_chars (c : Ascii.ascii) (d : Decimal.uint) :
  has_char c (NilEmpty.string_of_uint d) = true -> int_repr_char c = true.
Proof.
  induction d; cbn [NilEmpty.string_of_uint has_char]; try done;
    intros [Hc%Ascii.eqb_eq | Hr]%orb_true_iff; subst; auto.
Qed.

Lemma py_str_int_chars (c : Ascii.ascii) (z : Z) :
  has_char c (py_str_int z) = true -> int_repr_char c = true.
Proof.
  unfold py_str_int. destruct (Z.to_int z) as [d|d];
    cbn [NilEmpty.string_of_int has_char]; [apply string_of_uint_chars|].
  intros [Hc%Ascii.eqb_eq | Hr]%orb_true_iff; [by subst|].
  by apply (string_of_uint_chars c d).
Qed.

(** A character that is not a digit nor [-] never occurs in [str(n)]. *)
Lemma py_str_int_no_char (c : Ascii.ascii) (z : Z) :
  int_repr_char c = false -> has_char c (py_str_int z) = false.
Proof.
  intros Hc. destruct (has_char c (py_str_int z)) eqn:E; [|done].
  apply py_str_int_chars in E. congruence.
Qed.

(** Reading the decimal text back gives the integer. *)
Lemma parse_int_repr_py_str_int (z : Z) : parse_int_repr (py_str_int z) = Some z.
Proof. unfold parse_int_repr, py_str_int. rewrite NilEmpty.isi. simpl. by rewrite DecimalZ.of_to. Qed.

Lemma py_str_int_inj (a b : Z) : py_str_int a = py_str_int b -> a = b.
Proof.
  intros H. apply (f_equal parse_int_repr) in H.
  rewrite !parse_int_repr_py_str_int in H. congruence.
Qed.

#[export] Hint Rewrite parse_int_repr_py_str_int : deepsphere_rw.
#[export] Hint Resolve py_str_int_no_char : deepsphere.

(** ** [str] of a list of [int]s *)

(** [str([a, b, c])] is ["[a, b, c]"]. *)
Definition py_repr_int_list (l : list Z) : string :=
  "[" +:+ String.concat ", " (map py_str_int l) +:+ "]".

Example py_repr_int_list_example : py_repr_int_list [1024; 512; 256; 128] = "[1024, 512, 256, 128]".
Proof. reflexivity. Qed.

(** ** [int] of a [str] *)

(** The ASCII characters [str.strip] and [int()] treat as whitespace:
    tab to carriage return, the four separators and the space. *)
Definition is_py_space (c : Ascii.ascii) : bool :=
  let n := Ascii.nat_of_ascii c in ((9 <=? n) && (n <=? 13) || (28 <=? n) && (n <=? 32))%nat.

Fixpoint lstrip (s : string) : string :=
  match s with
  | EmptyString => EmptyString
  | String c r => if is_py_space c then lstrip r else s
  end.

Fixpoint rstrip (s : string) : string :=
  match s with
  | EmptyString => EmptyString
  | String c r =>
      let r' := rstrip r in
      if String.eqb r' "" && is_py_space c then EmptyString else String c r'
  end.

Definition py_strip (s : string) : string := rstrip (lstrip s).

(** The digits of a numeric literal with PEP 515 underscores: one
    underscore at a time, only between two digits.  [after] is true at the
    start and after an underscore, where a digit must follow. *)
Fixpoint remove_underscores (s : string) (after : bool) : option string :=
  match s with
  | EmptyString => if after then None else Some EmptyString
  | String c r =>
      if Ascii.eqb c "_" then (if after then None else remove_underscores r true)
      else option_map (String c) (remove_underscores r false)
  end.

(** A leading sign, as [int()] and [float()] accept it. *)
Definition split_sign (s : string) : bool * string :=
  match s with
  | String c r => if Ascii.eqb c "-" then (true, r) else if Ascii.eqb c "+" then (false, r)
                  else (false, s)
  | EmptyString => (false, s)
  end.

Definition int_literal_error : PyExc := ValueError "invalid literal for int() with base 10".

(** [int(s)] for a [str] of ASCII characters. *)
Definition py_int_of_str (s : string) : res Z :=
  let '(neg, body) := split_sign (py_strip s) in
  match remove_underscores body true ≫= NilEmpty.uint_of_string with
  | Some d => inr (if neg then - Z.of_uint d else Z.of_uint d)
  | None => inl int_literal_error
  end.

(** ** Lemmas on [int] of a [str] *)

Example py_int_of_str_examples :
  py_int_of_str " -3 " = inr (-3) /\ py_int_of_str "1_000" = inr 1000 /\
  py_int_of_str "+07" = inr 7 /\ py_int_of_str "1__0" = inl int_literal_error /\
  py_int_of_str "" = inl int_literal_error /\ py_int_of_str "0.1" = inl int_literal_error.
Proof. split_and!; reflexivity. Qed.

(** ** [float] of a [str] *)

(** The part of [s] before the first [c], and the part after it. *)
Fixpoint split_first (c : Ascii.ascii) (s : string) : option (string * string) :=
  match s with
  | EmptyString => None
  | String x r =>
      if Ascii.eqb x c then Some (EmptyString, r)
      else option_map (fun '(a, b) => (String x a, b)) (split_first c r)
  end.

Definition ascii_lower (c : Ascii.ascii) : Ascii.ascii :=
  let n := Ascii.nat_of_ascii c in
  if ((65 <=? n) && (n <=? 90))%nat then Ascii.ascii_of_nat (n + 32) else c.

Fixpoint string_lower (s : string) : string :=
  match s with
  | EmptyString => EmptyString
  | String c r => String (ascii_lower c) (string_lower r)
  end.

(** A [digitpart] of the grammar, its underscores removed. *)
Definition digitpart (s : string) : option string :=
  t ← remove_underscores s true; _ ← NilEmpty.uint_of_string t; Some t.

(** The number of decimal digits of a positive integer. *)
Definition decimal_digits (m : Z) : Z := Z.of_nat (String.length (py_str_int m)).

(** The binary64 value nearest to [m * 10^e10] (ties to even), for
    [m >= 0].  Values that are certainly out of range are short-cut: with
    [D] digits, [m * 10^e10 >= 10^(D-1+e10)] overflows when
    [D + e10 > 400], and [m * 10^e10 < 10^(D+e10)] rounds to zero when
    [D + e10 < -400]. *)
Definition decimal_to_float (m e10 : Z) : float :=
  if m =? 0 then PrimFloat.zero
  else if 400 <? e10 + decimal_digits m then PrimFloat.infinity
  else if e10 + decimal_digits m <? -400 then PrimFloat.zero
  else if 0 <=? e10 then
    FloatOps.SF2Prim (SpecFloat.binary_normalize FloatOps.prec FloatOps.emax (m * 10 ^ e10) 0 false)
  else FloatOps.SF2Prim (SpecFloat.SFdiv FloatOps.prec FloatOps.emax (sf_of_Z m) (sf_of_Z (10 ^ (- e10)))).

(** [number [exponent]]: the digits of the mantissa, as an integer, and
    the power of ten. *)
Definition parse_floatnumber (s : string) : option (Z * Z) :=
  let '(num, ex) := match split_first "e" (string_lower s) with
                    | Some (a, b) => (a, Some b)
                    | None => (string_lower s, None)
                    end in
  e ← match ex with
      | None => Some 0
      | Some b => let '(neg, body) := split_sign b in
                  t ← digitpart body; d ← NilEmpty.uint_of_string t;
                  Some (if neg then - Z.of_uint d else Z.of_uint d)
      end;
  '(ip, fp) ← match split_first "." num with
              | Some (a, b) =>
                  match a, b with
                  | EmptyString, EmptyString => None
                  | EmptyString, _ => f ← digitpart b; Some (EmptyString, f)
                  | _, EmptyString => i ← digitpart a; Some (i, EmptyString)
                  | _, _ => i ← digitpart a; f ← digitpart b; Some (i, f)
                  end
              | None => i ← digitpart num; Some (i, EmptyString)
              end;
  d ← NilEmpty.uint_of_string (ip +:+ fp);
  Some (Z.of_uint d, e - Z.of_nat (String.length fp)).

(** [float(s)] for a [str] of ASCII characters. *)
Definition py_float_of_str (s : string) : res float :=
  let '(neg, body) := split_sign (py_strip s) in
  let sgn f := if neg then PrimFloat.opp f else f in
  let low := string_lower body in
  if String.eqb low "inf" || String.eqb low "infinity" then inr (sgn PrimFloat.infinity)
  else if String.eqb low "nan" then inr (sgn PrimFloat.nan)
  else match parse_floatnumber body with
       | Some (m, e10) => inr (sgn (decimal_to_float m e10))
       | None => inl (ValueError "could not convert string to float")
       end.

Example py_float_of_str_examples :
  py_float_of_str "0.1" = inr 0.1%float /\ py_float_of_str " 1e-4" = inr 1e-4%float /\
  py_float_of_str "2.5E3" = inr 2500%float /\ py_float_of_str ".5" = inr 0.5%float /\
  py_float_of_str "5." = inr 5%float /\ py_float_of_str "1_0.5" = inr 10.5%float /\
  py_float_of_str "-0" = inr (-0)%float /\ py_float_of_str "1e400" = inr PrimFloat.infinity /\
  py_float_of_str "Infinity" = inr PrimFloat.infinity /\ py_float_of_str "0.3" = inr 0.3%float /\
  py_float_of_str "1e" = inl (ValueError "could not convert string to float") /\
  py_float_of_str "." = inl (ValueError "could not convert string to float") /\
  py_float_of_str "1_" = inl (ValueError "could not convert string to float").
Proof. split_and!; vm_compute; reflexivity. Qed.
