(* ===== verification/Hyperparams.v ===== *)
(** * Hyper-parameter derivation ([single_experiment], lines 29-103)

    The sampling schedule [nsides] selected by [order], the dictionary
    [params] that [single_experiment] fills one key at a time before it
    passes to the model constructor [models.scnn], and the evaluation cadence
    [eval_frequency], computed with Python's float operations.

    The dictionary is a [gmap string PyVal]; each Python assignment
    [params[k] = v] is an insertion [<[k := v]>], in the source's order.
    The order-dependent table of the spec (section 4.1) is the record
    [HyperTable]; [build_params_refines] shows that the dictionary the code
    builds is that table's rendering. *)

From S2P Require Import Prelude PyCore.

Open Scope Z_scope.

(** ** Constants of [single_experiment] *)

Definition use_stat_layer : bool := false.   (* line 14 *)
Definition Nside : Z := 1024.                (* line 15 *)
Definition C : Z := 2.                       (* line 48: number of classes *)
Definition n_evaluations : Z := 200.         (* line 102 *)

(** ** The sampling schedule (lines 29-42) *)

Definition nsides_of (Nside order : Z) : res (list Z) :=
  if order =? 4 then
    inr [Nside; Nside / 2; Nside / 4; Z.min (Nside / 8) 128]
  else if order =? 2 then
    inr [Nside; Nside / 2; Nside / 4; Nside / 8; Z.min (Nside / 16) 128]
  else if order =? 1 then
    inr [Nside; Nside / 2; Nside / 4; Nside / 8; Nside / 16; Z.min (Nside / 32) 64]
  else inl (ValueError "No parameters for this value of order.").

(** ** The dictionary [params] *)

Abbreviation Params := (gmap string PyVal).

(** A Python list of [int]s. *)
Definition py_list_int (l : list Z) : PyVal := PList (map PInt l).

(** [params[k]] where the value must be an [int]: [KeyError] for a missing
    key, [TypeError] for a value of another type. *)
Definition dict_get_int (d : Params) (k : string) : res Z :=
  match d !! k with
  | Some (PInt z) => inr z
  | Some _ => inl (TypeError k)
  | None => inl (KeyError k)
  end.

(** The order-dependent block (lines 66-88); [[10] * 4] is the list
    repetition [replicate 4 10]. *)
Definition set_order_params (order : Z) (params : Params) : res Params :=
  if order =? 4 then
    let params := <["num_epochs" := PInt 80]> params in
    let params := <["batch_size" := PInt 20]> params in
    let params := <["F" := py_list_int [40; 160; 320; 20]]> params in
    let params := <["K" := py_list_int (replicate 4 10)]> params in
    let params := <["batch_norm" := PList (replicate 4 (PBool true))]> params in
    let params := <["regularization" := PFloat 2e-4]> params in
    inr params
  else if order =? 2 then
    let params := <["num_epochs" := PInt 250]> params in
    let params := <["batch_size" := PInt 15]> params in
    let params := <["F" := py_list_int [10; 80; 320; 40; 10]]> params in
    let params := <["K" := py_list_int (replicate 5 10)]> params in
    let params := <["batch_norm" := PList (replicate 5 (PBool true))]> params in
    let params := <["regularization" := PFloat 4e-4]> params in
    inr params
  else if order =? 1 then
    let params := <["num_epochs" := PInt 700]> params in
    let params := <["batch_size" := PInt 10]> params in
    let params := <["F" := py_list_int [10; 40; 160; 40; 20; 10]]> params in
    let params := <["K" := py_list_int (replicate 6 10)]> params in
    let params := <["batch_norm" := PList (replicate 6 (PBool true))]> params in
    let params := <["regularization" := PFloat 4e-4]> params in
    inr params
  else inl (ValueError "No parameter for this value of order.").

(** [int(num_epochs * N / batch_size / n_evaluations)] (line 103): an
    [int] product, an [int / int] true division, a [float / int] division
    (the [int] promoted to [float]) and a truncation. *)
Definition eval_frequency_of (num_epochs N batch_size : Z) : res Z :=
  q1 <-? py_truediv_int (num_epochs * N) batch_size ;;
  ne <-? py_float_of_int n_evaluations ;;
  q2 <-? py_truediv_float q1 ne ;;
  py_int_of_float q2.

(** Lines 51-103: the whole dictionary, given the experiment name, the
    schedule, the index sets computed by [utils.nside2indexes] and the
    size [training.N] of the training set. *)
Definition build_params (EXP_NAME : string) (nsides : list Z) (indexes : PyVal)
    (order training_N : Z) : res Params :=
  let params : Params := ∅ in
  let params := <["dir_name" := PStr EXP_NAME]> params in
  let params := <["conv" := PStr "chebyshev5"]> params in
  let params := <["pool" := PStr "max"]> params in
  let params := <["activation" := PStr "relu"]> params in
  let params := if use_stat_layer then <["statistics" := PStr "meanvar"]> params
                else <["statistics" := PNone]> params in
  let params := <["nsides" := py_list_int nsides]> params in
  let params := <["indexes" := indexes]> params in
  params <-? set_order_params order params ;;
  let params := <["M" := py_list_int [100; C]]> params in
  let params := <["decay_rate" := PFloat 0.98]> params in
  let params := <["dropout" := PFloat 0.5]> params in
  let params := <["learning_rate" := PFloat 1e-4]> params in
  let params := <["momentum" := PFloat 0.9]> params in
  let params := <["adam" := PBool true]> params in
  let params := <["decay_steps" := PFloat 153.6]> params in
  let params := <["use_4" := PBool false]> params in
  num_epochs <-? dict_get_int params "num_epochs" ;;
  batch_size <-? dict_get_int params "batch_size" ;;
  ef <-? eval_frequency_of num_epochs training_N batch_size ;;
  inr (<["eval_frequency" := PInt ef]> params).

(** ** The spec's hyper-parameter table (section 4.1)

    The order-dependent settings as one record per supported [order]; the
    spec's design notes ask for exactly this lookup table in place of the
    branch-heavy code.  [render_params] is the dictionary the table stands
    for. *)
Record HyperTable := {
  ht_num_epochs : Z;
  ht_batch_size : Z;
  ht_F : list Z;
  ht_K : list Z;
  ht_batch_norm : list bool;
  ht_regularization : float
}.

Definition hyper_table (order : Z) : option HyperTable :=
  if order =? 4 then
    Some {| ht_num_epochs := 80; ht_batch_size := 20; ht_F := [40; 160; 320; 20];
            ht_K := replicate 4 10; ht_batch_norm := replicate 4 true;
            ht_regularization := 2e-4 |}
  else if order =? 2 then
    Some {| ht_num_epochs := 250; ht_batch_size := 15; ht_F := [10; 80; 320; 40; 10];
            ht_K := replicate 5 10; ht_batch_norm := replicate 5 true;
            ht_regularization := 4e-4 |}
  else if order =? 1 then
    Some {| ht_num_epochs := 700; ht_batch_size := 10; ht_F := [10; 40; 160; 40; 20; 10];
            ht_K := replicate 6 10; ht_batch_norm := replicate 6 true;
            ht_regularization := 4e-4 |}
  else None.

Definition render_params (h : HyperTable) (EXP_NAME : string) (nsides : list Z)
    (indexes : PyVal) (eval_frequency : Z) : Params :=
  list_to_map [
    ("dir_name", PStr EXP_NAME); ("conv", PStr "chebyshev5"); ("pool", PStr "max");
    ("activation", PStr "relu"); ("statistics", PNone);
    ("nsides", py_list_int nsides); ("indexes", indexes);
    ("num_epochs", PInt (ht_num_epochs h)); ("batch_size", PInt (ht_batch_size h));
    ("F", py_list_int (ht_F h)); ("K", py_list_int (ht_K h));
    ("batch_norm", PList (map PBool (ht_batch_norm h)));
    ("regularization", PFloat (ht_regularization h));
    ("M", py_list_int [100; 2]);
    ("decay_rate", PFloat 0.98); ("dropout", PFloat 0.5); ("learning_rate", PFloat 1e-4);
    ("momentum", PFloat 0.9); ("adam", PBool true); ("decay_steps", PFloat 153.6);
    ("use_4", PBool false); ("eval_frequency", PInt eval_frequency)].

(** The shape of the schedule the spec states for each supported order. *)
Definition supported_order (order : Z) : bool := (order =? 1) || (order =? 2) || (order =? 4).
Definition num_levels (order : Z) : nat := if order =? 4 then 4 else if order =? 2 then 5 else 6.
Definition level_cap (order : Z) : Z := if order =? 1 then 64 else 128.

(** The largest training set for which [eval_frequency] is checked
    exhaustively: [2^16] samples.  The experiments use 40 simulated maps
    of 2 classes cut into at most [12 * 4^2] patches each, 15360 samples. *)
Definition eval_bound : Z := 2 ^ 16.

(** ** Lemmas *)

Lemma supported_order_cases (order : Z) :
  supported_order order = true -> order = 1 \/ order = 2 \/ order = 4.
Proof. unfold supported_order. intros H. repeat (apply orb_true_iff in H as [H|H]); lia. Qed.

Lemma unsupported_order_neq (order : Z) :
  supported_order order = false -> order <> 1 /\ order <> 2 /\ order <> 4.
Proof. unfold supported_order. intros H. repeat (apply orb_false_iff in H as [H ?]); lia. Qed.

Lemma hyper_table_supported (order : Z) (h : HyperTable) :
  hyper_table order = Some h -> order = 1 \/ order = 2 \/ order = 4.
Proof.
  unfold hyper_table. destruct (Z.eqb_spec order 4), (Z.eqb_spec order 2),
    (Z.eqb_spec order 1); intros; try lia; discriminate.
Qed.

(** Split a goal on the three supported orders, the hypotheses rewritten. *)
Ltac supported_cases H :=
  first [ apply supported_order_cases in H | apply hyper_table_supported in H ];
  destruct H as [H|[H|H]]; subst.

(** The kernel-checked table of [eval_frequency] for the three orders. *)
Definition eval_frequency_ok (num_epochs batch_size N : Z) : bool :=
  match eval_frequency_of num_epochs N batch_size with
  | inr v => v =? num_epochs * N / (batch_size * n_evaluations)
  | inl _ => false
  end.

Lemma eval_frequency_ok_order4 :
  all_in_range (eval_frequency_ok 80 20) 0 (Z.to_nat (eval_bound + 1)) = true.
Proof. vm_compute. reflexivity. Qed.

Lemma eval_frequency_ok_order2 :
  all_in_range (eval_frequency_ok 250 15) 0 (Z.to_nat (eval_bound + 1)) = true.
Proof. vm_compute. reflexivity. Qed.

Lemma eval_frequency_ok_order1 :
  all_in_range (eval_frequency_ok 700 10) 0 (Z.to_nat (eval_bound + 1)) = true.
Proof. vm_compute. reflexivity. Qed.

Lemma eval_frequency_of_checked (num_epochs batch_size N : Z) :
  all_in_range (eval_frequency_ok num_epochs batch_size) 0 (Z.to_nat (eval_bound + 1)) = true ->
  0 <= N <= eval_bound ->
  eval_frequency_of num_epochs N batch_size
  = inr (num_epochs * N / (batch_size * n_evaluations)).
Proof.
  intros Hall HN.
  assert (Hok : eval_frequency_ok num_epochs batch_size N = true).
  { apply (all_in_range_spec _ _ _ Hall). rewrite Z2Nat.id; unfold eval_bound in *; lia. }
  unfold eval_frequency_ok in Hok.
  destruct (eval_frequency_of _ N _); [discriminate | apply Z.eqb_eq in Hok; congruence].
Qed.

Lemma eval_frequency_of_exact (order N : Z) (h : HyperTable) :
  hyper_table order = Some h -> 0 <= N <= eval_bound ->
  eval_frequency_of (ht_num_epochs h) N (ht_batch_size h)
  = inr (ht_num_epochs h * N / (ht_batch_size h * n_evaluations)).
Proof.
  intros Hh HN. pose proof Hh as Ho. supported_cases Ho.
  all: cbn in Hh; invc Hh; apply eval_frequency_of_checked; [|done].
  - exact eval_frequency_ok_order1.
  - exact eval_frequency_ok_order2.
  - exact eval_frequency_ok_order4.
Qed.

Lemma hyper_table_total (order : Z) :
  supported_order order = true -> exists h, hyper_table order = Some h.
Proof. intros Hs. supported_cases Hs; eexists; reflexivity. Qed.

(** For a supported order, [build_params] is the table's rendering once
    [eval_frequency] has been computed: the insertions of the code and the
    table give the same map. *)
Lemma build_params_table (EXP_NAME : string) (ns : list Z) (idx : PyVal)
    (order N : Z) (h : HyperTable) :
  hyper_table order = Some h ->
  build_params EXP_NAME ns idx order N
  = (ef <-? eval_frequency_of (ht_num_epochs h) N (ht_batch_size h) ;;
     inr (render_params h EXP_NAME ns idx ef)).
Proof. intros Hh. pose proof Hh as Ho. supported_cases Ho; cbn in Hh; invc Hh; reflexivity. Qed.

Lemma build_params_unsupported (EXP_NAME : string) (ns : list Z) (idx : PyVal)
    (order N : Z) :
  supported_order order = false ->
  build_params EXP_NAME ns idx order N = inl (ValueError "No parameter for this value of order.").
Proof.
  intros Hs. apply unsupported_order_neq in Hs as (?&?&?). unfold build_params, set_order_params.
  destruct (Z.eqb_spec order 4), (Z.eqb_spec order 2), (Z.eqb_spec order 1); done.
Qed.


(** The dictionary's [dir_name] is the experiment name (line 51). *)
Lemma build_params_dir_name (EXP_NAME : string) (ns : list Z) (idx : PyVal) (order N : Z) (p : Params) :
  build_params EXP_NAME ns idx order N = inr p -> p !! "dir_name" = Some (PStr EXP_NAME).
Proof.
  unfold build_params, set_order_params, dict_get_int. intros Hb.
  repeat (case_match; simplify_eq/=); by simplify_map_eq.
Qed.

(** ** Theorems *)

(** C1: for every supported [order] and every base resolution [N] the
    schedule has 4, 5 or 6 levels; level [i] is [N // 2^i] except the last,
    which is [min(N // 2^k, cap)] with cap 128 (orders 4, 2) or 64
    (order 1). *)
Theorem nsides_of_spec (N order : Z) :
  supported_order order = true ->
  exists ns, nsides_of N order = inr ns /\ length ns = num_levels order /\
    (forall i, (i < num_levels order - 1)%nat -> ns !! i = Some (N / 2 ^ Z.of_nat i)) /\
    ns !! (num_levels order - 1)%nat
    = Some (Z.min (N / 2 ^ Z.of_nat (num_levels order - 1)) (level_cap order)).
Proof.
  intros Hs. supported_cases Hs; eexists; split_and!; try reflexivity;
    intros i Hi; cbn in Hi;
    do 5 (destruct i as [|i]; [first [lia | cbn; rewrite ?Z.div_1_r; reflexivity]|]); lia.
Qed.

(** C2: at the script's base resolution [Nside = 1024] the cap never binds:
    each level of the schedule is exactly twice the next one, for every
    supported [order]. *)
Theorem nsides_halving (order : Z) (ns : list Z) (i : nat) (x y : Z) :
  nsides_of Nside order = inr ns -> ns !! i = Some x -> ns !! S i = Some y -> x = 2 * y.
Proof.
  unfold nsides_of, Nside.
  destruct (order =? 4); [|destruct (order =? 2); [|destruct (order =? 1)]];
    intros Hns; simplify_eq; intros Hx Hy;
    do 6 (destruct i as [|i]; [cbn in *; simplify_eq; reflexivity|]); done.
Qed.

(** The schedule of an unsupported [order] raises (line 42). *)
Lemma nsides_of_unsupported (N order : Z) :
  supported_order order = false ->
  nsides_of N order = inl (ValueError "No parameters for this value of order.").
Proof.
  intros Hs. apply unsupported_order_neq in Hs as (?&?&?). unfold nsides_of.
  destruct (Z.eqb_spec order 4), (Z.eqb_spec order 2), (Z.eqb_spec order 1); done.
Qed.

(** A dictionary that is built is the rendering of the table's row. *)
Lemma build_params_inv (EXP_NAME : string) (ns : list Z) (idx : PyVal)
    (order N : Z) (p : Params) :
  build_params EXP_NAME ns idx order N = inr p ->
  exists h ef, hyper_table order = Some h /\
    eval_frequency_of (ht_num_epochs h) N (ht_batch_size h) = inr ef /\
    p = render_params h EXP_NAME ns idx ef.
Proof.
  intros Hb. destruct (supported_order order) eqn:Hs.
  - destruct (hyper_table_total order Hs) as [h Hh].
    rewrite (build_params_table _ _ _ _ _ h Hh) in Hb.
    destruct (eval_frequency_of _ _ _) as [|ef] eqn:Hef; simplify_eq. eauto.
  - by rewrite build_params_unsupported in Hb.
Qed.

(** C3: an unsupported [order] makes both order tables raise [ValueError]:
    the schedule (message of line 42) and the hyper-parameter block
    (message of line 88). *)
Theorem unsupported_order_raises (N order : Z) (EXP_NAME : string) (ns : list Z)
    (idx : PyVal) (tN : Z) :
  supported_order order = false ->
  nsides_of N order = inl (ValueError "No parameters for this value of order.") /\
  build_params EXP_NAME ns idx order tN = inl (ValueError "No parameter for this value of order.").
Proof. intros Hs. split; [by apply nsides_of_unsupported | by apply build_params_unsupported]. Qed.

(** C4: refinement of the spec's table: the dictionary built by the
    code's sequence of insertions is exactly the rendering of the table's
    record for [order] (same keys, same values), and it is built exactly
    when the table has a row for [order] and [eval_frequency] evaluates. *)
Theorem build_params_refines (EXP_NAME : string) (ns : list Z) (idx : PyVal)
    (order N : Z) (p : Params) :
  build_params EXP_NAME ns idx order N = inr p <->
  exists h ef, hyper_table order = Some h /\
    eval_frequency_of (ht_num_epochs h) N (ht_batch_size h) = inr ef /\
    p = render_params h EXP_NAME ns idx ef.
Proof.
  split; [apply build_params_inv|].
  intros (h & ef & Hh & Hef & ->). by rewrite (build_params_table _ _ _ _ _ h Hh), Hef.
Qed.

(** C5: the architecture is consistent for every supported order: the
    feature-map counts [F], the polynomial orders [K] and the batch-norm
    flags [batch_norm] of the dictionary each have one entry per level of
    the schedule [nsides]. *)
Theorem params_layers_consistent (N order : Z) (ns : list Z) (EXP_NAME : string)
    (idx : PyVal) (tN : Z) (p : Params) :
  nsides_of N order = inr ns -> build_params EXP_NAME ns idx order tN = inr p ->
  exists f k bn, p !! "F" = Some (py_list_int f) /\ p !! "K" = Some (py_list_int k) /\
    p !! "batch_norm" = Some (PList bn) /\
    length f = length ns /\ length k = length ns /\ length bn = length ns.
Proof.
  intros Hns Hb. apply build_params_inv in Hb as (h & ef & Hh & _ & ->).
  pose proof Hh as Ho. supported_cases Ho; cbn in Hh; invc Hh; cbn in Hns; invc Hns;
    eexists _, _, _; split_and!; reflexivity.
Qed.

(** C6: for every supported order and every training set of at most
    [eval_bound] samples, the dictionary is built (the second [raise] of
    line 88 is unreachable) and its [eval_frequency], computed in binary64
    as [int(num_epochs * N / batch_size / 200)], is the exact integer
    floor of [num_epochs * N / (batch_size * 200)]. *)
Theorem build_params_eval_frequency (EXP_NAME : string) (ns : list Z) (idx : PyVal)
    (order N : Z) :
  supported_order order = true -> 0 <= N <= eval_bound ->
  exists h p, hyper_table order = Some h /\ build_params EXP_NAME ns idx order N = inr p /\
    p !! "eval_frequency"
    = Some (PInt (ht_num_epochs h * N / (ht_batch_size h * n_evaluations))).
Proof.
  intros Hs HN. destruct (hyper_table_total order Hs) as [h Hh].
  exists h. eexists. split_and!; [done| |].
  - rewrite (build_params_table _ _ _ _ _ h Hh), (eval_frequency_of_exact order N h Hh HN).
    reflexivity.
  - reflexivity.
Qed.

(** C7: on a small training set, [num_epochs * N < batch_size * 200]
    (fewer than 50, 12 or 3 samples for orders 4, 2, 1), the evaluation
    cadence is 0, a value the spec's "about 200 evaluations" does not
    cover. *)
Theorem eval_frequency_zero_small (order N : Z) (h : HyperTable) :
  hyper_table order = Some h -> 0 <= N ->
  ht_num_epochs h * N < ht_batch_size h * n_evaluations ->
  eval_frequency_of (ht_num_epochs h) N (ht_batch_size h) = inr 0.
Proof.
  intros Hh HN Hlt. pose proof Hh as Ho.
  rewrite (eval_frequency_of_exact order N h Hh); [f_equal; apply Z.div_small|];
    supported_cases Ho; cbn in Hh; invc Hh; cbn in *;
    unfold eval_bound, n_evaluations in *; lia.
Qed.

(** ** Witnesses *)

Lemma nsides_of_spec_witness :
  supported_order 4 = true /\
  exists ns, nsides_of 1024 4 = inr ns /\ length ns = num_levels 4 /\
    (forall i, (i < num_levels 4 - 1)%nat -> ns !! i = Some (1024 / 2 ^ Z.of_nat i)) /\
    ns !! (num_levels 4 - 1)%nat
    = Some (Z.min (1024 / 2 ^ Z.of_nat (num_levels 4 - 1)) (level_cap 4)).
Proof. split; [reflexivity | apply (nsides_of_spec 1024 4); reflexivity]. Defined.

Lemma nsides_halving_witness :
  nsides_of Nside 2 = inr [1024; 512; 256; 128; 64] /\
  [1024; 512; 256; 128; 64] !! 3%nat = Some 128 /\
  [1024; 512; 256; 128; 64] !! 4%nat = Some 64 /\ 128 = 2 * 64.
Proof.
  split_and!; [reflexivity | reflexivity | reflexivity |].
  apply (nsides_halving 2 [1024; 512; 256; 128; 64] 3); reflexivity.
Defined.

Lemma unsupported_order_raises_witness :
  supported_order 3 = false /\
  nsides_of Nside 3 = inl (ValueError "No parameters for this value of order.") /\
  build_params "x" [] PNone 3 100 = inl (ValueError "No parameter for this value of order.").
Proof. split; [reflexivity | apply (unsupported_order_raises Nside 3); reflexivity]. Defined.

Lemma params_layers_consistent_witness :
  nsides_of Nside 1 = inr [1024; 512; 256; 128; 64; 32] /\
  exists p, build_params "x" [1024; 512; 256; 128; 64; 32] PNone 1 1000 = inr p /\
  exists f k bn, p !! "F" = Some (py_list_int f) /\ p !! "K" = Some (py_list_int k) /\
    p !! "batch_norm" = Some (PList bn) /\
    length f = length [1024; 512; 256; 128; 64; 32] /\
    length k = length [1024; 512; 256; 128; 64; 32] /\
    length bn = length [1024; 512; 256; 128; 64; 32].
Proof.
  split; [reflexivity|]. eexists. split; [reflexivity|].
  apply (params_layers_consistent Nside 1 _ "x" PNone 1000); reflexivity.
Defined.

Lemma build_params_eval_frequency_witness :
  supported_order 4 = true /\ 0 <= 1000 <= eval_bound /\
  exists h p, hyper_table 4 = Some h /\ build_params "x" [] PNone 4 1000 = inr p /\
    p !! "eval_frequency"
    = Some (PInt (ht_num_epochs h * 1000 / (ht_batch_size h * n_evaluations))).
Proof.
  split_and!; [reflexivity | lia | unfold eval_bound; lia |].
  apply build_params_eval_frequency; [reflexivity | unfold eval_bound; lia].
Defined.

Lemma eval_frequency_zero_small_witness :
  exists h, hyper_table 4 = Some h /\ 0 <= 49 /\
    ht_num_epochs h * 49 < ht_batch_size h * n_evaluations /\
    eval_frequency_of (ht_num_epochs h) 49 (ht_batch_size h) = inr 0.
Proof.
  eexists. split; [reflexivity|]. split_and!; [lia | reflexivity |].
  apply (eval_frequency_zero_small 4); [reflexivity | lia | reflexivity].
Defined.

(** The spec's example: [order = 4], 1000 training samples, cadence 20. *)
Example eval_frequency_spec_example : eval_frequency_of 80 1000 20 = inr 20.
Proof. reflexivity. Qed.
