(* ===== verification/Naming.v ===== *)
(** * Names and paths (lines 17-18, 108-109, 131, 138-141)

    The experiment name ['40sim_{}sides_{}noise_{}order_{}sigma'], the
    summary and checkpoint directories removed before training, and the
    path of the per-[sigma] result archive built with [os.path.join].
    [str.format] with an empty field renders an [int] with [str] and a
    [float] with its [repr]; the text of [sigma_noise] is therefore an
    argument here ([sigma_noise_str]), computed by the Python runtime.

    The script never parses these names back; [parse_exp_name] is the
    specification device showing that the name determines the experiment,
    so that two experiments never share (and never delete) each other's
    directories, and two [sigma] values never share an archive. *)

From S2P Require Import Prelude PyCore.

Open Scope Z_scope.

(** ** The names the script builds *)

(** Python's [s.endswith(suffix)]. *)
Definition ends_with (suf s : string) : bool :=
  match strip_suffix suf s with Some _ => true | None => false end.

(** [os.path.join(a, b)] on POSIX: an absolute [b] replaces [a]; the
    separator is added unless [a] is empty or already ends with it. *)
Definition os_path_join (a b : string) : string :=
  if String.prefix "/" b then b
  else if String.eqb a "" || ends_with "/" a then a +:+ b
  else a +:+ "/" +:+ b.

(** Lines 17-18. *)
Definition exp_name (Nside : Z) (sigma_noise_str : string) (order sigma : Z) : string :=
  "40sim_" +:+ py_str_int Nside +:+ "sides_" +:+ sigma_noise_str +:+ "noise_" +:+
  py_str_int order +:+ "order_" +:+ py_str_int sigma +:+ "sigma".

(** Lines 108-109: ['summaries/{}/'.format(EXP_NAME)] and
    ['checkpoints/{}/'.format(EXP_NAME)]. *)
Definition summaries_dir (EXP_NAME : string) : string := "summaries/" +:+ EXP_NAME +:+ "/".
Definition checkpoints_dir (EXP_NAME : string) : string := "checkpoints/" +:+ EXP_NAME +:+ "/".

(** Line 131. *)
Definition results_path : string := "results/scnn/".

(** Line 138: [os.path.join(path, 'scnn_results_list_sigma{}'.format(sigma))]. *)
Definition results_filepath (sigma : Z) : string :=
  os_path_join results_path ("scnn_results_list_sigma" +:+ py_str_int sigma).

(** Lines 140-141: the file that is tested and loaded. *)
Definition npz_path (filepath : string) : string := filepath +:+ ".npz".

(** ** Reading a name back *)

Definition parse_exp_name (name : string) : option (Z * string * Z * Z) :=
  match split_on "_" name with
  | [w0; w1; w2; w3; w4] =>
      if String.eqb w0 "40sim" then
        n ← strip_suffix "sides" w1 ≫= parse_int_repr;
        sn ← strip_suffix "noise" w2;
        o ← strip_suffix "order" w3 ≫= parse_int_repr;
        s ← strip_suffix "sigma" w4 ≫= parse_int_repr;
        Some (n, sn, o, s)
      else None
  | _ => None
  end.

(** ** Lemmas *)

(** The name as its five ['_']-separated fields. *)
Lemma exp_name_fields (N : Z) (sn : string) (o s : Z) :
  exp_name N sn o s =
  "40sim" +:+ String "_" ((py_str_int N +:+ "sides") +:+ String "_"
    ((sn +:+ "noise") +:+ String "_" ((py_str_int o +:+ "order") +:+ String "_"
      (py_str_int s +:+ "sigma")))).
Proof. unfold exp_name. rewrite <- !string_app_assoc. reflexivity. Qed.

Lemma results_filepath_eq (sigma : Z) :
  results_filepath sigma = "results/scnn/scnn_results_list_sigma" +:+ py_str_int sigma.
Proof. reflexivity. Qed.

(** An integer field with a literal suffix has no underscore. *)
Lemma int_field_no_underscore (z : Z) (suf : string) :
  has_char "_" suf = false -> has_char "_" (py_str_int z +:+ suf) = false.
Proof. intros Hs. rewrite has_char_app, Hs, py_str_int_no_char; reflexivity. Qed.

#[export] Hint Resolve int_field_no_underscore : deepsphere.

(** The trees [rmtree] removes, and the fact that the two are disjoint. *)
Lemma strip_summaries_dir (n : string) :
  strip_suffix "/" (summaries_dir n) = Some ("summaries/" +:+ n).
Proof. unfold summaries_dir. by rewrite string_app_assoc, strip_suffix_app. Qed.

Lemma strip_checkpoints_dir (n : string) :
  strip_suffix "/" (checkpoints_dir n) = Some ("checkpoints/" +:+ n).
Proof. unfold checkpoints_dir. by rewrite string_app_assoc, strip_suffix_app. Qed.

(** [EXP_NAME.split('_')]: the five fields, when the noise text has no
    underscore. *)
Lemma exp_name_split (N : Z) (sn : string) (o s : Z) :
  has_char "_" sn = false ->
  split_on "_" (exp_name N sn o s) =
  ["40sim"; py_str_int N +:+ "sides"; sn +:+ "noise"; py_str_int o +:+ "order";
   py_str_int s +:+ "sigma"].
Proof.
  intros Hsn. rewrite exp_name_fields.
  rewrite split_on_app by reflexivity.
  rewrite split_on_app by auto with deepsphere.
  rewrite split_on_app by (rewrite has_char_app, Hsn; reflexivity).
  rewrite split_on_app by auto with deepsphere.
  by rewrite split_on_no_char by auto with deepsphere.
Qed.

(** ** Theorems *)

(** C8: the experiment name reads back into its fields: for any text of
    [sigma_noise] without an underscore (CPython's float repr has none),
    [parse_exp_name] recovers the base resolution, the noise text, the
    order and [sigma]. *)
Theorem parse_exp_name_exp_name (N : Z) (sn : string) (o s : Z) :
  has_char "_" sn = false -> parse_exp_name (exp_name N sn o s) = Some (N, sn, o, s).
Proof.
  intros Hsn. unfold parse_exp_name. rewrite exp_name_split by done.
  rewrite String.eqb_refl, !strip_suffix_app. cbn [mbind option_bind].
  by rewrite !parse_int_repr_py_str_int.
Qed.

(** C9: distinct experiments get distinct names, so the summary and
    checkpoint directories one run removes are its own. *)
Theorem exp_name_inj (N : Z) (sn1 sn2 : string) (o1 o2 s1 s2 : Z) :
  has_char "_" sn1 = false -> has_char "_" sn2 = false ->
  exp_name N sn1 o1 s1 = exp_name N sn2 o2 s2 -> sn1 = sn2 /\ o1 = o2 /\ s1 = s2.
Proof.
  intros H1 H2 Heq. apply (f_equal (split_on "_")) in Heq.
  rewrite !exp_name_split in Heq by done. injection Heq as Hn Ho Hs.
  apply (f_equal (strip_suffix "noise")) in Hn. apply (f_equal (strip_suffix "order")) in Ho.
  apply (f_equal (strip_suffix "sigma")) in Hs. rewrite !strip_suffix_app in Hn, Ho, Hs.
  simplify_eq. split_and!; [done | by apply py_str_int_inj..].
Qed.

(** Distinct [sigma] values get distinct archive files. *)
Lemma results_filepath_inj (s1 s2 : Z) :
  npz_path (results_filepath s1) = npz_path (results_filepath s2) -> s1 = s2.
Proof.
  unfold npz_path. rewrite !results_filepath_eq, <- !string_app_assoc.
  intros H. apply String.app_inj in H. apply py_str_int_inj.
  apply (f_equal (strip_suffix ".npz")) in H. rewrite !strip_suffix_app in H. congruence.
Qed.

(** ** Witnesses *)

Lemma parse_exp_name_exp_name_witness :
  has_char "_" "0.1" = false /\
  parse_exp_name (exp_name 1024 "0.1" 2 3) = Some (1024, "0.1", 2, 3).
Proof. split; [reflexivity | apply parse_exp_name_exp_name; reflexivity]. Defined.

Lemma exp_name_inj_witness :
  has_char "_" "0.1" = false /\ exp_name 1024 "0.1" 2 3 = exp_name 1024 "0.1" 2 3 /\
  ("0.1" = "0.1" /\ 2 = 2 /\ 3 = 3).
Proof.
  split; [reflexivity|]. split; [reflexivity|].
  apply (exp_name_inj 1024 "0.1" "0.1" 2 2 3 3); reflexivity.
Defined.


(** The archive of the spec's example. *)
Example results_filepath_example :
  npz_path (results_filepath 3) = "results/scnn/scnn_results_list_sigma3.npz".
Proof. reflexivity. Qed.
