(* ===== verification/World.v ===== *)
(** * The world: file system, standard output and the trace of calls

    The script's effects, as a state-and-exception monad [M]: a step reads
    and updates a [World] and either returns a value or raises a Python
    exception, leaving the world as it was at the [raise] (Python has no
    rollback).  The file system is a map from paths (without a trailing
    ['/']) to nodes; an [.npz] archive is the list of its named arrays,
    each a 2-D float64 array as [np.savez] writes it.  The operations are
    the library calls of the script: [shutil.rmtree(p, ignore_errors=True)],
    [os.makedirs(p, exist_ok=True)], [os.path.isfile], [np.load(p)[k]] and
    [np.savez(p, data=...)], with NumPy's conversion of a list of records
    to a float64 array (done after the archive is opened, so a failed
    conversion leaves it truncated).  A call to an external collaborator
    is recorded in the trace and prints what it prints; the trainer's call
    also reads and writes the file system.  The theorem of this file is
    the behaviour of
    [os.makedirs('results/scnn/', exist_ok=True)] (line 133) on every
    branch. *)

From S2P Require Import Prelude PyCore Naming.

Open Scope Z_scope.

(** ** State *)

(** A 2-D float64 array, as a list of rows. *)
Abbreviation NdArray := (list (list float)).

Inductive Node :=
| Dir
| NpzFile (arrays : list (string * NdArray))
| OtherFile.

(** The calls the script makes to its external collaborators, in order. *)
Inductive Event :=
| ELoadTrain (sigma order : Z)
| ELoadTest (sigma order : Z) (sigma_noise : float)
| EPreprocess
| EIndexes (nsides : list Z) (order : Z)
| EBuildModel (dir_name : string)
| EFit (dir_name : string)
| EModelError
| EGrid.

Record World := mkWorld {
  fs : gmap string Node;
  stdout : list string;
  trace : list Event
}.

Definition set_fs (m : gmap string Node) (w : World) : World :=
  mkWorld m (stdout w) (trace w).

(** ** The monad *)

Definition M (A : Type) : Type := World -> res A * World.

Definition ret {A} (a : A) : M A := fun w => (inr a, w).

Definition bind {A B} (m : M A) (k : A -> M B) : M B :=
  fun w => match m w with
           | (inr a, w') => k a w'
           | (inl e, w') => (inl e, w')
           end.

(** A pure computation of the script that may raise. *)
Definition lift {A} (r : res A) : M A := fun w => (r, w).

Declare Scope world_scope.
Delimit Scope world_scope with world.
Notation "x <- m ;; k" := (bind m (fun x => k))
  (at level 100, m at next level, right associativity) : world_scope.
Notation "m ;;; k" := (bind m (fun _ => k))
  (at level 100, right associativity) : world_scope.
Open Scope world_scope.

(** [print(s)]. *)
Definition print (s : string) : M unit :=
  fun w => (inr tt, mkWorld (fs w) (stdout w ++ [s]) (trace w)).

(** What a call to an external collaborator yields: its result (a value
    or the exception it raises) and the lines it printed on the way. *)
Abbreviation Out A := (res A * list string)%type.

(** A call to an external collaborator that does not touch the file
    system: recorded in the trace; its output is printed and its result
    returned. *)
Definition call {A} (ev : Event) (r : Out A) : M A :=
  fun w => (r.1, mkWorld (fs w) (stdout w ++ r.2) (trace w ++ [ev])).

(** A call that reads and writes the file system: the trainer resumes
    from the files it finds and writes its summaries and checkpoints.
    What it wrote stays when it raises. *)
Definition call_fs {A} (ev : Event) (f : gmap string Node -> res A * gmap string Node * list string) :
    M A :=
  fun w => let '(r, m, out) := f (fs w) in (r, mkWorld m (stdout w ++ out) (trace w ++ [ev])).

(** ** Paths *)

Definition strip_trailing_slash (p : string) : string :=
  match strip_suffix "/" p with Some q => q | None => p end.

(** [k] is [base] or a path below it. *)
Definition under (base k : string) : bool :=
  String.eqb k base || String.prefix (base +:+ "/") k.

(** The directory part of a path ([os.path.dirname] without the final
    separator). *)
Definition parent_dir (p : string) : string :=
  String.concat "/" (removelast (split_on "/" p)).

(** ** File-system operations *)

(** [shutil.rmtree(p, ignore_errors=True)]: a directory is removed with
    everything below it; a missing path or a regular file is an error that
    is ignored, leaving the file system unchanged. *)
Definition rmtree_fs (p : string) (m : gmap string Node) : gmap string Node :=
  let base := strip_trailing_slash p in
  match m !! base with
  | Some Dir => filter (fun kv : string * Node => under base kv.1 = false) m
  | _ => m
  end.

Definition rmtree_ignore_errors (p : string) : M unit :=
  fun w => (inr tt, set_fs (rmtree_fs p (fs w)) w).

(** One [mkdir] of [os.makedirs(p, exist_ok=True)]: an existing directory
    is accepted; an existing file raises [FileExistsError] for the last
    component and [NotADirectoryError] for an intermediate one. *)
Definition mkdir_exist_ok (is_leaf : bool) (p : string) : M unit :=
  fun w =>
    match fs w !! p with
    | None => (inr tt, set_fs (<[p := Dir]> (fs w)) w)
    | Some Dir => (inr tt, w)
    | Some _ => (inl (if is_leaf then FileExistsError p else NotADirectoryError p), w)
    end.

(** The successive prefixes [a], [a/b], [a/b/c] of a relative path. *)
Fixpoint dir_prefixes (acc : string) (parts : list string) : list string :=
  match parts with
  | [] => []
  | c :: rest =>
      let d := if String.eqb acc "" then c else acc +:+ "/" +:+ c in
      d :: dir_prefixes d rest
  end.

Fixpoint mkdirs (ds : list string) : M unit :=
  match ds with
  | [] => ret tt
  | [d] => mkdir_exist_ok true d
  | d :: ds' => mkdir_exist_ok false d ;;; mkdirs ds'
  end.

Definition os_makedirs_exist_ok (p : string) : M unit :=
  mkdirs (dir_prefixes "" (split_on "/" (strip_trailing_slash p))).

(** [os.path.isfile(p)]. *)
Definition os_path_isfile (p : string) : M bool :=
  fun w => match fs w !! p with
           | Some (NpzFile _) | Some OtherFile => (inr true, w)
           | _ => (inr false, w)
           end.

(** [np.load(p)[key]]. *)
Definition np_load_field (p key : string) : M NdArray :=
  fun w =>
    match fs w !! p with
    | Some (NpzFile arrs) =>
        match list_to_map (M := gmap string NdArray) arrs !! key with
        | Some a => (inr a, w)
        | None => (inl (KeyError (key +:+ " is not a file in the archive")), w)
        end
    | Some OtherFile =>
        (inl (ValueError "Cannot load file containing pickled data when allow_pickle=False"), w)
    | Some Dir => (inl (IsADirectoryError p), w)
    | None => (inl (FileNotFoundError p), w)
    end.

(** [a.tolist()] of a 2-D float array. *)
Definition tolist (a : NdArray) : list PyVal :=
  map (fun row => PList (map PFloat row)) a.

(** One element of [np.array(...)] with dtype float64. *)
Definition np_float64 (v : PyVal) : res float :=
  match v with
  | PInt z => py_float_of_int z
  | PFloat f => inr f
  | PBool b => inr (if b then PrimFloat.one else PrimFloat.zero)
  | _ => inl (ValueError "could not convert to float")
  end.

Definition np_inhomogeneous : PyExc :=
  ValueError "setting an array element with a sequence. The requested array has an inhomogeneous shape after 1 dimensions.".

(** One row of [np.array(rows)]: a list of numbers. *)
Definition np_row (r : PyVal) : res (list float) :=
  match r with
  | PList xs => res_map np_float64 xs
  | _ => inl np_inhomogeneous
  end.

(** [np.array(rows)] for a list of records: every row a list of numbers,
    all rows of one length; the numbers promoted to float64. *)
Definition np_array_2d (rows : list PyVal) : res NdArray :=
  a <-? res_map np_row rows ;;
  match a with
  | [] => inr []
  | r0 :: _ => if forallb (fun r => Nat.eqb (length r) (length r0)) a then inr a
               else inl np_inhomogeneous
  end.

(** [np.savez(file, data=rows)] (NumPy's [_savez]): [.npz] is appended
    unless present.  The archive is opened for writing first, which
    raises when its directory is missing or the path is a directory and
    otherwise truncates the file; then the rows are converted to one
    float64 array.  A conversion that raises leaves the truncated file
    behind: the [ZipFile] is closed on the way out and holds no member. *)
Definition np_savez_data (file : string) (rows : list PyVal) : M unit :=
  fun w =>
    let p := if ends_with ".npz" file then file else npz_path file in
    match fs w !! parent_dir p, fs w !! p with
    | Some Dir, Some Dir => (inl (IsADirectoryError p), w)
    | Some Dir, _ =>
        match np_array_2d rows with
        | inl e => (inl e, set_fs (<[p := NpzFile []]> (fs w)) w)
        | inr a => (inr tt, set_fs (<[p := NpzFile [("data", a)]]> (fs w)) w)
        end
    | _, _ => (inl (FileNotFoundError p), w)
    end.

(** ** Lemmas *)

Lemma bind_inr {A B} (m : M A) (k : A -> M B) (w w' : World) (a : A) :
  m w = (inr a, w') -> bind m k w = k a w'.
Proof. intros H. unfold bind. by rewrite H. Qed.

Lemma bind_inl {A B} (m : M A) (k : A -> M B) (w w' : World) (e : PyExc) :
  m w = (inl e, w') -> bind m k w = (inl e, w').
Proof. intros H. unfold bind. by rewrite H. Qed.

Lemma bind_assoc {A B C} (m : M A) (k : A -> M B) (h : B -> M C) (w : World) :
  bind (bind m k) h w = bind m (fun x => bind (k x) h) w.
Proof. unfold bind. by destruct (m w) as [[e|a] w']. Qed.

(** One step of a program whose first action returns. *)
Lemma bind_call_inr {A B} (ev : Event) (a : A) (out : list string) (k : A -> M B) (w : World) :
  bind (call ev (inr a, out)) k w = k a (mkWorld (fs w) (stdout w ++ out) (trace w ++ [ev])).
Proof. reflexivity. Qed.

Lemma bind_call_fs_inr {A B} (ev : Event) (f : gmap string Node -> res A * gmap string Node * list string)
    (a : A) (m : gmap string Node) (out : list string) (k : A -> M B) (w : World) :
  f (fs w) = (inr a, m, out) -> bind (call_fs ev f) k w = k a (mkWorld m (stdout w ++ out) (trace w ++ [ev])).
Proof. intros Hf. unfold bind, call_fs. by rewrite Hf. Qed.

Lemma bind_lift_inr {A B} (a : A) (k : A -> M B) (w : World) :
  bind (lift (inr a)) k w = k a w.
Proof. reflexivity. Qed.

Lemma bind_print {B} (s : string) (k : unit -> M B) (w : World) :
  bind (print s) k w = k tt (mkWorld (fs w) (stdout w ++ [s]) (trace w)).
Proof. reflexivity. Qed.

Lemma bind_rmtree {B} (p : string) (k : unit -> M B) (w : World) :
  bind (rmtree_ignore_errors p) k w = k tt (set_fs (rmtree_fs p (fs w)) w).
Proof. reflexivity. Qed.

(** The array a [tolist] gives back converts to the same array. *)
Lemma res_map_np_float64_tolist (row : list float) :
  res_map np_float64 (map PFloat row) = inr row.
Proof. induction row as [|x row IH]; simpl; [done|]. by rewrite IH. Qed.

Lemma res_map_np_row_tolist (a : NdArray) : res_map np_row (tolist a) = inr a.
Proof.
  induction a as [|row a IH]; [done|].
  change (tolist (row :: a)) with (PList (map PFloat row) :: tolist a).
  cbn [res_map np_row]. by rewrite res_map_np_float64_tolist, IH.
Qed.

Lemma res_map_app {A B} (f : A -> res B) (l1 l2 : list A) (r1 : list B) :
  res_map f l1 = inr r1 -> res_map f (l1 ++ l2) = (r2 <-? res_map f l2 ;; inr (r1 ++ r2)).
Proof.
  revert r1. induction l1 as [|x l1 IH]; intros r1; simpl.
  - intros [= <-]. by destruct (res_map f l2).
  - destruct (f x) as [e|y]; [done|]. destruct (res_map f l1) as [e|ys] eqn:E; [done|].
    intros [= <-]. rewrite (IH ys eq_refl). by destruct (res_map f l2).
Qed.

#[export] Hint Rewrite res_map_np_float64_tolist res_map_np_row_tolist : deepsphere_rw.

(** ** Footprints

    [fs_footprint P m]: running [m] changes the file system only at paths
    satisfying [P], whatever it returns. *)
Definition fs_footprint {A} (P : string -> Prop) (m : M A) : Prop :=
  forall w k, ~ P k -> fs (m w).2 !! k = fs w !! k.

Section Footprint.
Context (P : string -> Prop).

Lemma footprint_bind {A B} (m : M A) (k : A -> M B) :
  fs_footprint P m -> (forall a, fs_footprint P (k a)) -> fs_footprint P (bind m k).
Proof.
  intros Hm Hk w x Hx. unfold bind. specialize (Hm w x Hx).
  destruct (m w) as [[e|a] w'] eqn:E; simpl in *; [done|]. by rewrite Hk.
Qed.

Lemma footprint_ret {A} (a : A) : fs_footprint P (ret a).
Proof. done. Qed.

Lemma footprint_lift {A} (r : res A) : fs_footprint P (lift r).
Proof. done. Qed.

Lemma footprint_print (s : string) : fs_footprint P (print s).
Proof. done. Qed.

Lemma footprint_call {A} (ev : Event) (r : Out A) : fs_footprint P (call ev r).
Proof. done. Qed.

(** A call that writes the file system only inside [P]. *)
Lemma footprint_call_fs {A} (ev : Event) (f : gmap string Node -> res A * gmap string Node * list string) :
  (forall m r m' out k, f m = (r, m', out) -> ~ P k -> m' !! k = m !! k) ->
  fs_footprint P (call_fs ev f).
Proof. intros Hf w k Hk. unfold call_fs. destruct (f (fs w)) as [[r m'] out] eqn:E. by eapply Hf. Qed.

Lemma footprint_isfile (p : string) : fs_footprint P (os_path_isfile p).
Proof. intros w k _. unfold os_path_isfile. by destruct (fs w !! p) as [[]|]. Qed.

Lemma footprint_load (p key : string) : fs_footprint P (np_load_field p key).
Proof.
  intros w k _. unfold np_load_field.
  destruct (fs w !! p) as [[|arrs|]|]; [done| |done|done].
  by destruct (_ !! key).
Qed.

(** Binds that keep what the first action returned, for a footprint
    that depends on it. *)
Lemma footprint_bind_call {A B} (ev : Event) (r : Out A) (k : A -> M B) :
  (forall a, r.1 = inr a -> fs_footprint P (k a)) -> fs_footprint P (bind (call ev r) k).
Proof. intros Hk w x Hx. unfold bind, call. destruct r as [[e|a] out]; [done|]. exact (Hk a eq_refl _ x Hx). Qed.

Lemma footprint_bind_lift {A B} (r : res A) (k : A -> M B) :
  (forall a, r = inr a -> fs_footprint P (k a)) -> fs_footprint P (bind (lift r) k).
Proof. intros Hk w x Hx. unfold bind, lift. destruct r as [e|a]; [done|]. exact (Hk a eq_refl _ x Hx). Qed.

Lemma footprint_weaken (Q : string -> Prop) {A} (m : M A) :
  (forall k, P k -> Q k) -> fs_footprint P m -> fs_footprint Q m.
Proof. intros HPQ Hm w k Hk. apply Hm. naive_solver. Qed.
End Footprint.

(** [np.savez] writes only the file it names. *)
Lemma footprint_savez (file : string) (rows : list PyVal) :
  fs_footprint (eq (if ends_with ".npz" file then file else npz_path file))
    (np_savez_data file rows).
Proof.
  intros w k Hk. unfold np_savez_data.
  set (p := if ends_with ".npz" file then file else npz_path file) in *.
  destruct (fs w !! parent_dir p) as [[]|], (fs w !! p) as [[]|]; try done;
    destruct (np_array_2d rows); cbn [snd set_fs fs]; by rewrite lookup_insert_ne.
Qed.

Lemma rmtree_fs_lookup (p : string) (m : gmap string Node) (k : string) :
  rmtree_fs p m !! k =
  match m !! strip_trailing_slash p with
  | Some Dir => if under (strip_trailing_slash p) k then None else m !! k
  | _ => m !! k
  end.
Proof.
  unfold rmtree_fs. destruct (m !! strip_trailing_slash p) as [[]|]; simpl; [|done..].
  rewrite map_lookup_filter. destruct (m !! k); simpl; [|by destruct (under _ k)].
  by destruct (under _ k).
Qed.

Lemma rmtree_fs_outside (p : string) (m : gmap string Node) (k : string) :
  under (strip_trailing_slash p) k = false -> rmtree_fs p m !! k = m !! k.
Proof. intros Hk. rewrite rmtree_fs_lookup. by destruct (m !! _) as [[]|]; rewrite ?Hk. Qed.

(** The tree at [base] can be cleaned: it is a directory, or nothing is
    there. *)
Definition cleanable (m : gmap string Node) (base : string) : Prop :=
  m !! base = Some Dir \/ forall k, under base k = true -> m !! k = None.

Lemma rmtree_fs_cleared (p : string) (m : gmap string Node) (k : string) :
  cleanable m (strip_trailing_slash p) -> under (strip_trailing_slash p) k = true ->
  rmtree_fs p m !! k = None.
Proof.
  intros [Hd|Hn] Hk; rewrite rmtree_fs_lookup; [by rewrite Hd, Hk|].
  destruct (m !! strip_trailing_slash p) as [[]|]; rewrite ?Hk; auto.
Qed.

Lemma rmtree_fs_none (p : string) (m : gmap string Node) (k : string) :
  m !! k = None -> rmtree_fs p m !! k = None.
Proof.
  intros Hk. rewrite rmtree_fs_lookup.
  destruct (m !! strip_trailing_slash p) as [[]|]; [destruct (under _ k)|..]; done.
Qed.

(** Removing one tree keeps another, disjoint one cleanable. *)
Lemma rmtree_fs_cleanable (p base : string) (m : gmap string Node) :
  under (strip_trailing_slash p) base = false -> cleanable m base ->
  cleanable (rmtree_fs p m) base.
Proof.
  intros Hdis [Hd|Hn]; [left | right].
  - rewrite rmtree_fs_lookup, Hdis. by destruct (m !! strip_trailing_slash p) as [[]|].
  - intros k Hk. by apply rmtree_fs_none, Hn.
Qed.

(** [rmtree] touches only the tree it removes. *)
Lemma footprint_rmtree (p : string) :
  fs_footprint (fun k => under (strip_trailing_slash p) k = true) (rmtree_ignore_errors p).
Proof.
  intros w k Hk. cbn [rmtree_ignore_errors snd set_fs fs]. rewrite rmtree_fs_lookup.
  apply not_true_is_false in Hk. rewrite Hk. by destruct (fs w !! _) as [[]|].
Qed.

Lemma set_fs_insert_dir (w : World) (p : string) :
  fs w !! p = Some Dir -> set_fs (<[p := Dir]> (fs w)) w = w.
Proof. intros Hp. destruct w as [m o t]. unfold set_fs. cbn in *. by rewrite insert_id. Qed.

(** [os.makedirs('results/scnn/', exist_ok=True)] is two [mkdir]s. *)
Lemma makedirs_results_steps :
  os_makedirs_exist_ok results_path =
  (mkdir_exist_ok false "results" ;;; mkdir_exist_ok true "results/scnn").
Proof. reflexivity. Qed.

(** ** Path prefixes *)

Lemma prefix_app_l (a b : string) : String.prefix a (a +:+ b) = true.
Proof.
  induction a as [|x a IH]; [by destruct b|].
  rewrite string_app_cons. cbn. by destruct (Ascii.ascii_dec x x).
Qed.

Lemma prefix_app_inv (a b k : string) : String.prefix (a +:+ b) k = true -> String.prefix a k = true.
Proof.
  revert k. induction a as [|x a IH]; intros k Hk; [by destruct k|].
  rewrite string_app_cons in Hk. destruct k as [|y k]; [done|]. cbn in *.
  destruct (Ascii.ascii_dec x y); [by apply IH | done].
Qed.

(** Every path of the tree at [a +:+ b] starts with [a]. *)
Lemma under_prefix (a b k : string) : under (a +:+ b) k = true -> String.prefix a k = true.
Proof.
  unfold under. intros [Heq%String.eqb_eq|Hp]%orb_true_iff.
  - subst. apply prefix_app_l.
  - rewrite <- string_app_assoc in Hp. by apply prefix_app_inv in Hp.
Qed.

(** Two prefixes with different first characters exclude each other. *)
Lemma prefix_exclusive (x y : Ascii.ascii) (a b k : string) :
  x <> y -> String.prefix (String x a) k = true -> String.prefix (String y b) k = false.
Proof.
  intros Hxy. destruct k as [|c k]; [done|]. cbn.
  destruct (Ascii.ascii_dec x c), (Ascii.ascii_dec y c); congruence.
Qed.

#[export] Hint Resolve footprint_bind footprint_ret footprint_lift footprint_print
  footprint_call footprint_call_fs footprint_isfile footprint_load : deepsphere.

(** ** Theorems *)

(** C20: [os.makedirs('results/scnn/', exist_ok=True)] on every branch:
    existing directories are kept and missing ones made; a file at
    [results] raises [NotADirectoryError] with nothing changed; a file at
    [results/scnn] raises [FileExistsError] after [results] is made. *)
Theorem results_makedirs (w : World) :
  os_makedirs_exist_ok results_path w =
  match fs w !! "results" with
  | Some Dir | None =>
      match fs w !! "results/scnn" with
      | Some Dir | None =>
          (inr tt, set_fs (<["results/scnn" := Dir]> (<["results" := Dir]> (fs w))) w)
      | Some _ => (inl (FileExistsError "results/scnn"), set_fs (<["results" := Dir]> (fs w)) w)
      end
  | Some _ => (inl (NotADirectoryError "results"), w)
  end.
Proof.
  rewrite makedirs_results_steps. unfold bind, mkdir_exist_ok.
  destruct w as [m so tr]. unfold set_fs. cbn [fs stdout trace].
  destruct (m !! "results") as [[]|] eqn:Er; cbn [fs]; try done.
  - rewrite (insert_id m "results" Dir Er).
    destruct (m !! "results/scnn") as [[]|] eqn:Es; try done. by rewrite (insert_id m _ Dir Es).
  - rewrite lookup_insert_ne by discriminate.
    destruct (m !! "results/scnn") as [[]|] eqn:Es; try done.
    rewrite (insert_id (<["results" := Dir]> m) "results/scnn" Dir); [done|].
    by rewrite lookup_insert_ne by discriminate.
Qed.
