(* ===== verification/Persistence.v ===== *)
(** * Result persistence (lines 138-145)

    After each experiment the script reads the archive of its [sigma]
    (if the file exists), appends the record [[order, sigma_noise, res]]
    and rewrites the whole archive with [np.savez]: a read-modify-rewrite,
    not an append.  NumPy stores the records as one float64 array, so the
    integer [order] comes back as a float on the next read.

    [archive_rows w sigma] is what a later [np.load(...)['data']] of that
    archive would return in world [w]; the theorems state the archive
    after [persist_result] in terms of it. *)

From S2P Require Import Prelude PyCore Naming World.

Open Scope Z_scope.

(** ** The operation *)

(** Lines 138-145, for one experiment whose test error is [res_]. *)
Definition persist_result (sigma order : Z) (sigma_noise res_ : float) : M unit :=
  let filepath := results_filepath sigma in
  let new_data := PList [PInt order; PFloat sigma_noise; PFloat res_] in
  ex <- os_path_isfile (npz_path filepath) ;;
  results <- (if ex then a <- np_load_field (npz_path filepath) "data" ;; ret (tolist a)
              else ret []) ;;
  np_savez_data filepath (results ++ [new_data]).

(** ** Observing an archive *)

(** The rows of the [data] array of the archive of [sigma], if there is
    one ([None]: no such file). *)
Definition archive_rows (w : World) (sigma : Z) : option NdArray :=
  match fs w !! npz_path (results_filepath sigma) with
  | Some (NpzFile arrs) => list_to_map (M := gmap string NdArray) arrs !! "data"
  | _ => None
  end.

(** The archive of [sigma] is absent, or holds a well-formed [data] array
    of [rows]: three columns per record. *)
Definition archive_ok (w : World) (sigma : Z) (rows : NdArray) : Prop :=
  (fs w !! npz_path (results_filepath sigma) = None /\ rows = []) \/
  (exists arrs, fs w !! npz_path (results_filepath sigma) = Some (NpzFile arrs) /\
     list_to_map (M := gmap string NdArray) arrs !! "data" = Some rows /\
     Forall (fun r => length r = 3%nat) rows).

(** The directory of the archives exists. *)
Definition results_dir_ok (w : World) : Prop := fs w !! "results/scnn" = Some Dir.

(** ** Lemmas on the archive path *)

Lemma npz_results_fields (sigma : Z) :
  npz_path (results_filepath sigma) =
  "results" +:+ String "/" ("scnn" +:+ String "/"
    ("scnn_results_list_sigma" +:+ (py_str_int sigma +:+ ".npz"))).
Proof. unfold npz_path. rewrite results_filepath_eq, <- string_app_assoc. reflexivity. Qed.

(** [np.savez] does not add a second [.npz]: the path given ends with the
    digits of [sigma]. *)
Lemma results_filepath_not_npz (sigma : Z) : ends_with ".npz" (results_filepath sigma) = false.
Proof.
  unfold ends_with. destruct (strip_suffix _ _) as [x|] eqn:E; [|done].
  apply strip_suffix_some in E. apply (f_equal (has_char "z")) in E.
  rewrite results_filepath_eq, !has_char_app, py_str_int_no_char in E by reflexivity.
  rewrite orb_true_r in E. discriminate.
Qed.

Lemma parent_dir_npz_results (sigma : Z) :
  parent_dir (npz_path (results_filepath sigma)) = "results/scnn".
Proof.
  rewrite npz_results_fields. unfold parent_dir.
  rewrite split_on_app by reflexivity. rewrite split_on_app by reflexivity.
  rewrite split_on_no_char; [reflexivity|].
  rewrite !has_char_app, py_str_int_no_char; reflexivity.
Qed.

(** NumPy's conversion of the loaded rows followed by the new record: the
    record's [order] promoted to float64, the result one array. *)
Lemma np_array_2d_append (rows : NdArray) (order : Z) (sn r fo : float) :
  Forall (fun row => length row = 3%nat) rows -> py_float_of_int order = inr fo ->
  np_array_2d (tolist rows ++ [PList [PInt order; PFloat sn; PFloat r]])
  = inr (rows ++ [[fo; sn; r]]).
Proof.
  intros Hrows Ho. unfold np_array_2d.
  rewrite (res_map_app _ _ _ rows (res_map_np_row_tolist rows)).
  cbn [res_map np_row np_float64]. rewrite Ho. cbn.
  destruct rows as [|r0 rows]; [done|]. apply Forall_cons in Hrows as [H0 Hrows].
  assert (Hall : forallb (fun r1 : list float => (length r1 =? length r0)%nat)
                   (r0 :: rows ++ [[fo; sn; r]]) = true).
  2: { cbn [app] in *. by rewrite Hall. }
  apply forallb_forall.
  intros x Hx%list_elem_of_In. apply Nat.eqb_eq. rewrite H0.
  rewrite elem_of_cons, elem_of_app, list_elem_of_singleton in Hx.
  destruct Hx as [->|[Hx| ->]]; [done | | done].
  by rewrite Forall_forall in Hrows; apply Hrows.
Qed.

(** [np.savez] of the archive of [sigma] with an array that converts. *)
Lemma savez_results (w : World) (sigma : Z) (rows : list PyVal) (a : NdArray) :
  results_dir_ok w -> fs w !! npz_path (results_filepath sigma) <> Some Dir ->
  np_array_2d rows = inr a ->
  np_savez_data (results_filepath sigma) rows w
  = (inr tt, set_fs (<[npz_path (results_filepath sigma) := NpzFile [("data", a)]]> (fs w)) w).
Proof.
  intros Hd Hnd Ha. unfold np_savez_data. rewrite results_filepath_not_npz, Ha.
  unfold results_dir_ok in Hd. rewrite parent_dir_npz_results, Hd.
  by destruct (fs w !! npz_path _) as [[]|].
Qed.

Lemma archive_ok_not_dir (w : World) (sigma : Z) (rows : NdArray) :
  archive_ok w sigma rows -> fs w !! npz_path (results_filepath sigma) <> Some Dir.
Proof. intros [[-> _]|(arrs & -> & _)]; done. Qed.

(** The read half of the update: the rows loaded back are [rows]. *)
Lemma persist_result_reads (w : World) (sigma order : Z) (sn r : float) (rows : NdArray) :
  archive_ok w sigma rows ->
  persist_result sigma order sn r w =
  np_savez_data (results_filepath sigma) (tolist rows ++ [PList [PInt order; PFloat sn; PFloat r]]) w.
Proof.
  intros Hok. unfold persist_result, bind, os_path_isfile, np_load_field, ret.
  destruct Hok as [[Hn ->]|(arrs & Hf & Hdata & _)]; [by rewrite Hn|].
  rewrite Hf. cbn beta iota. rewrite Hf. cbn beta iota. by rewrite Hdata.
Qed.

(** ** Theorems *)

(** C10: read-modify-append.  When the archive directory exists and the
    archive of [sigma] is absent or holds well-formed records [rows], the
    update succeeds and rewrites that archive with [rows] followed by the
    new record, whose [order] is promoted to float64; nothing else of the
    world changes. *)
Theorem persist_result_appends (w : World) (sigma order : Z) (sn r fo : float)
    (rows : NdArray) :
  results_dir_ok w -> archive_ok w sigma rows -> py_float_of_int order = inr fo ->
  persist_result sigma order sn r w
  = (inr tt, set_fs (<[npz_path (results_filepath sigma) :=
                        NpzFile [("data", rows ++ [[fo; sn; r]])]]> (fs w)) w).
Proof.
  intros Hd Hok Ho. rewrite (persist_result_reads w sigma order sn r rows Hok).
  apply (savez_results _ _ _ (rows ++ [[fo; sn; r]])); [done | by eapply archive_ok_not_dir|].
  apply np_array_2d_append; [|done]. by destruct Hok as [[_ ->]|(? & _ & _ & ?)].
Qed.

Lemma results_dir_ne_npz (sigma : Z) : "results/scnn" <> npz_path (results_filepath sigma).
Proof.
  rewrite npz_results_fields. intros H. apply (f_equal String.length) in H.
  rewrite !string_length_app in H. simpl in H. lia.
Qed.

(** After the rewrite the archive again satisfies the invariant. *)
Lemma persist_result_ok (w : World) (sigma order : Z) (sn r fo : float) (rows : NdArray) :
  results_dir_ok w -> archive_ok w sigma rows -> py_float_of_int order = inr fo ->
  let w' := (persist_result sigma order sn r w).2 in
  (persist_result sigma order sn r w).1 = inr tt /\
  results_dir_ok w' /\ archive_ok w' sigma (rows ++ [[fo; sn; r]]) /\
  archive_rows w' sigma = Some (rows ++ [[fo; sn; r]]) /\
  forall s, s <> sigma -> fs w' !! npz_path (results_filepath s) = fs w !! npz_path (results_filepath s).
Proof.
  intros Hd Hok Ho. rewrite (persist_result_reads w sigma order sn r rows Hok).
  rewrite (savez_results w sigma _ (rows ++ [[fo; sn; r]]) Hd (archive_ok_not_dir _ _ _ Hok))
    by (apply np_array_2d_append; [by destruct Hok as [[_ ->]|(? & _ & _ & ?)] | done]).
  unfold results_dir_ok, archive_ok, archive_rows. cbn [fst snd set_fs fs].
  rewrite lookup_insert_ne by (apply not_eq_sym, results_dir_ne_npz). rewrite lookup_insert_eq.
  split_and!; [done | done | right; eexists; split_and!; [done | done |] | done |].
  - apply Forall_app. split; [|by repeat constructor].
    by destruct Hok as [[_ ->]|(? & _ & _ & ?)].
  - intros s Hs. rewrite lookup_insert_ne; [done|]. by intros ?%results_filepath_inj.
Qed.

(** The archive invariant only looks at the archive's own path. *)
Lemma archive_ok_agree (w w' : World) (sigma : Z) (rows : NdArray) :
  fs w' !! npz_path (results_filepath sigma) = fs w !! npz_path (results_filepath sigma) ->
  archive_ok w sigma rows -> archive_ok w' sigma rows.
Proof. unfold archive_ok. by intros ->. Qed.

(** [np.savez] of the archive of [sigma] with rows that do not convert:
    the archive is truncated to one with no array, then the conversion's
    exception propagates. *)
Lemma savez_results_fail (w : World) (sigma : Z) (rows : list PyVal) (e : PyExc) :
  results_dir_ok w -> fs w !! npz_path (results_filepath sigma) <> Some Dir ->
  np_array_2d rows = inl e ->
  np_savez_data (results_filepath sigma) rows w
  = (inl e, set_fs (<[npz_path (results_filepath sigma) := NpzFile []]> (fs w)) w).
Proof.
  intros Hd Hnd Ha. unfold np_savez_data. rewrite results_filepath_not_npz.
  unfold results_dir_ok in Hd. rewrite parent_dir_npz_results, Hd.
  destruct (fs w !! npz_path _) as [[]|]; [done| | |]; by rewrite Ha.
Qed.

Lemma npz_results_prefix (sigma : Z) : String.prefix "results/" (npz_path (results_filepath sigma)) = true.
Proof.
  unfold npz_path. rewrite results_filepath_eq, <- !string_app_assoc.
  change "results/scnn/scnn_results_list_sigma" with ("results/" +:+ "scnn/scnn_results_list_sigma").
  rewrite <- string_app_assoc. apply prefix_app_l.
Qed.

(** NumPy refuses records of mixed widths. *)
Lemma np_array_2d_inhomogeneous (rows : NdArray) (order : Z) (sn r fo : float) :
  ~ Forall (fun row => length row = 3%nat) rows -> py_float_of_int order = inr fo ->
  np_array_2d (tolist rows ++ [PList [PInt order; PFloat sn; PFloat r]]) = inl np_inhomogeneous.
Proof.
  intros Hn Ho. unfold np_array_2d.
  rewrite (res_map_app _ _ _ rows (res_map_np_row_tolist rows)).
  cbn [res_map np_row np_float64]. rewrite Ho. cbn.
  destruct rows as [|r0 rows]; [by destruct Hn|]. cbn [app].
  destruct (forallb (fun r1 : list float => (length r1 =? length r0)%nat)
            (r0 :: rows ++ [[fo; sn; r]])) eqn:E;
    [exfalso|done].
  rewrite forallb_forall in E. apply Hn.
  assert (H3 : length r0 = 3%nat).
  { symmetry. apply Nat.eqb_eq, (E [fo; sn; r]), in_cons, in_or_app. right. by left. }
  apply Forall_forall. intros x Hx. rewrite <- H3. apply Nat.eqb_eq, E.
  rewrite app_comm_cons. apply in_or_app. left. by apply list_elem_of_In.
Qed.

(** C11: the update writes only the archive of its own [sigma]: every other
    path of the file system is unchanged, whatever the outcome. *)
Theorem persist_result_footprint (sigma order : Z) (sn r : float) :
  fs_footprint (eq (npz_path (results_filepath sigma))) (persist_result sigma order sn r).
Proof.
  unfold persist_result. apply footprint_bind; [apply footprint_isfile|]. intros ex.
  apply footprint_bind; [destruct ex; auto with deepsphere|]. intros results.
  pose proof (footprint_savez (results_filepath sigma)
                (results ++ [PList [PInt order; PFloat sn; PFloat r]])) as H.
  by rewrite results_filepath_not_npz in H.
Qed.

(** C12: no deduplication: storing the same record twice for one [sigma]
    leaves two copies of it at the end of the archive. *)
Theorem persist_result_twice_duplicates (w : World) (sigma order : Z) (sn r fo : float)
    (rows : NdArray) :
  results_dir_ok w -> archive_ok w sigma rows -> py_float_of_int order = inr fo ->
  archive_rows (persist_result sigma order sn r (persist_result sigma order sn r w).2).2 sigma
  = Some (rows ++ [[fo; sn; r]; [fo; sn; r]]).
Proof.
  intros Hd Hok Ho. destruct (persist_result_ok w sigma order sn r fo rows Hd Hok Ho)
    as (_ & Hd' & Hok' & _).
  destruct (persist_result_ok _ sigma order sn r fo _ Hd' Hok' Ho) as (_ & _ & _ & Hrows & _).
  by rewrite Hrows, <- app_assoc.
Qed.

(** C13: an archive of [sigma] whose records are not all three wide (one
    written by another program) is lost: [np.savez] truncates it before
    converting the rows, the conversion raises [ValueError], and the
    archive is left with no array; every later update of that [sigma]
    then raises [KeyError] on loading it. *)
Theorem persist_result_bad_archive (w : World) (sigma order : Z) (sn r fo : float)
    (arrs : list (string * NdArray)) (rows : NdArray) :
  results_dir_ok w ->
  fs w !! npz_path (results_filepath sigma) = Some (NpzFile arrs) ->
  list_to_map (M := gmap string NdArray) arrs !! "data" = Some rows ->
  ~ Forall (fun row => length row = 3%nat) rows -> py_float_of_int order = inr fo ->
  let w' := set_fs (<[npz_path (results_filepath sigma) := NpzFile []]> (fs w)) w in
  persist_result sigma order sn r w = (inl np_inhomogeneous, w') /\
  forall order' sn' r', persist_result sigma order' sn' r' w'
    = (inl (KeyError "data is not a file in the archive"), w').
Proof.
  intros Hd Hf Hdata Hn Ho w'. split.
  - unfold persist_result, bind, os_path_isfile, np_load_field, ret.
    rewrite Hf. cbn beta iota. rewrite Hf. cbn beta iota. rewrite Hdata.
    apply savez_results_fail; [done | by rewrite Hf | by apply np_array_2d_inhomogeneous with fo].
  - intros order' sn' r'.
    assert (E : fs w' !! npz_path (results_filepath sigma) = Some (NpzFile []))
      by apply lookup_insert_eq.
    unfold persist_result, bind, os_path_isfile, np_load_field.
    rewrite E. cbn beta iota. by rewrite E.
Qed.

(** ** Witnesses and the spec's example *)

(** A fresh working directory after [os.makedirs('results/scnn/')]. *)
Definition w_fresh : World := mkWorld (<["results/scnn" := Dir]> (<["results" := Dir]> ∅)) [] [].

(** The same with a foreign archive for [sigma = 3] of two columns. *)
Definition w_foreign : World :=
  set_fs (<[npz_path (results_filepath 3) := NpzFile [("data", [[1.0; 2.0]%float])]]> (fs w_fresh))
    w_fresh.

Lemma persist_result_appends_witness :
  results_dir_ok w_fresh /\ archive_ok w_fresh 3 [] /\ py_float_of_int 4 = inr 4.0%float /\
  persist_result 3 4 0.1 0.05 w_fresh
  = (inr tt, set_fs (<[npz_path (results_filepath 3) :=
                        NpzFile [("data", [] ++ [[4.0; 0.1; 0.05]%float])]]> (fs w_fresh)) w_fresh).
Proof.
  assert (Hd : results_dir_ok w_fresh) by reflexivity.
  assert (Hok : archive_ok w_fresh 3 []) by (left; split; reflexivity).
  assert (Ho : py_float_of_int 4 = inr 4.0%float) by reflexivity.
  split_and!; [exact Hd | exact Hok | exact Ho |].
  exact (persist_result_appends w_fresh 3 4 0.1 0.05 4.0 [] Hd Hok Ho).
Defined.

Lemma persist_result_twice_duplicates_witness :
  results_dir_ok w_fresh /\ archive_ok w_fresh 3 [] /\ py_float_of_int 2 = inr 2.0%float /\
  archive_rows (persist_result 3 2 0.2 0.07 (persist_result 3 2 0.2 0.07 w_fresh).2).2 3
  = Some ([] ++ [[2.0; 0.2; 0.07]; [2.0; 0.2; 0.07]]%float).
Proof.
  assert (Hd : results_dir_ok w_fresh) by reflexivity.
  assert (Hok : archive_ok w_fresh 3 []) by (left; split; reflexivity).
  assert (Ho : py_float_of_int 2 = inr 2.0%float) by reflexivity.
  split_and!; [exact Hd | exact Hok | exact Ho |].
  exact (persist_result_twice_duplicates w_fresh 3 2 0.2 0.07 2.0 [] Hd Hok Ho).
Defined.

Lemma persist_result_bad_archive_witness :
  fs w_foreign !! npz_path (results_filepath 3) = Some (NpzFile [("data", [[1.0; 2.0]%float])]) /\
  list_to_map (M := gmap string NdArray) [("data", [[1.0; 2.0]%float])] !! "data"
  = Some [[1.0; 2.0]%float] /\
  ~ Forall (fun row => length row = 3%nat) [[1.0; 2.0]%float] /\
  py_float_of_int 4 = inr 4.0%float /\ results_dir_ok w_foreign /\
  persist_result 3 4 0.1 0.05 w_foreign
  = (inl np_inhomogeneous,
     set_fs (<[npz_path (results_filepath 3) := NpzFile []]> (fs w_foreign)) w_foreign).
Proof.
  assert (Hn : ~ Forall (fun row => length row = 3%nat) [[1.0; 2.0]%float])
    by (intros H; inversion H; discriminate).
  split_and!; [reflexivity | reflexivity | exact Hn | reflexivity | reflexivity |].
  apply (persist_result_bad_archive w_foreign 3 4 0.1 0.05 4.0 [("data", [[1.0; 2.0]%float])]
           [[1.0; 2.0]%float]);
    [reflexivity | reflexivity | reflexivity | exact Hn | reflexivity].
Defined.

(** The spec's scenario: two results for [sigma = 3] stored one after the
    other, in order, the integer [order] read back as a float. *)
Example persist_result_spec_example :
  archive_rows (persist_result 3 2 0.2 0.07 (persist_result 3 4 0.1 0.05 w_fresh).2).2 3
  = Some [[4.0; 0.1; 0.05]; [2.0; 0.2; 0.07]]%float.
Proof. vm_compute. reflexivity. Qed.
