(* ===== verification/Experiment.v ===== *)
(** * One experiment ([single_experiment], lines 13-119)

    The function as a program of the world monad: it loads and splits the
    data through [experiment_helper], wraps the training split in a noisy
    dataset, derives the schedule and the hyper-parameters
    ([Hyperparams]), builds the model, removes the stale summary and
    checkpoint directories of the experiment ([Naming], [World]), trains,
    and evaluates on the validation and test splits, printing both errors.

    The collaborators of the [scnn] package and the [repr] of a float are
    interfaces ([Collaborators], [FloatRepr]): every theorem holds for any
    implementation that keeps the interface's laws.  A collaborator's call
    is recorded in the trace; it prints what it prints, and its result is
    a value or the exception it raises, which the script never catches.
    [model.fit] reads the file system and writes its summaries and
    checkpoints under the model's directory.  The datasets are records of
    the spec's description of [scnn.data] (its source is not part of this
    repository).  The theorems: the data is loaded before an unsupported
    [order] raises; a run whose collaborators return, with its output,
    trace, result and the file system [fit] is given; the footprint of a
    run.  That stale files never reach [fit] is in [Cleanup]. *)

From S2P Require Import Prelude PyCore Hyperparams Naming World.

Open Scope Z_scope.

(** ** Interfaces *)

(** CPython's [repr] of a float, through [str.format]: digits, ['.'],
    ['e'], signs, [inf] and [nan]; never an underscore nor a slash. *)
Class FloatRepr := {
  float_repr : float -> string;
  float_repr_no_underscore : forall x, has_char "_" (float_repr x) = false;
  float_repr_no_slash : forall x, has_char "/" (float_repr x) = false
}.

(** The datasets of [scnn.data] (spec, section 4.2): the features, the
    labels, the noise schedule of [LabeledDatasetWithNoise]
    ([start_level], [end_level], [nit]) and the number of samples [N]. *)
Record Dataset (F L : Type) := mkDataset {
  ds_features : F;
  ds_labels : L;
  ds_noise : option (Z * float * Z);
  ds_N : Z
}.
Arguments mkDataset {F L}.
Arguments ds_N {F L}.

(** The calls [single_experiment] makes into [scnn]: each returns its
    result (or raises) and prints what it prints ([Out]); [len] of
    features and labels is part of the interface since their types are
    the library's.  Training reads and writes the file system: TensorFlow
    resumes from the summaries and checkpoints it finds under the model's
    directory and writes new ones there.  The laws are what DeepSphere's
    models do (run from the repository root, where the script's
    [summaries/] and [checkpoints/] are): the model keeps the [dir_name]
    of its parameters, and [fit] writes nowhere but under
    [summaries/<dir_name>] and [checkpoints/<dir_name>]. *)
Class Collaborators (Data Labels Std Feats Model : Type) := {
  get_training_data : Z -> Z -> Out (Data * Labels * Std);
  get_testing_data : Z -> Z -> float -> Std -> Out (Data * Labels * Std);
  data_preprossing : Data -> Labels -> Data -> float ->
    Out (Feats * Labels * Feats * Labels * Feats);
  feats_len : Feats -> Z;
  labels_len : Labels -> Z;
  nside2indexes : list Z -> Z -> Out PyVal;
  models_scnn : Params -> Out Model;
  model_dir : Model -> string;
  model_fit : Model -> Dataset Feats Labels -> Dataset Feats Labels -> gmap string Node ->
    res (float * float * Z) * gmap string Node * list string;
  model_error : Model -> Feats -> Labels -> Out float;
  models_scnn_dir : forall p model,
    (models_scnn p).1 = inr model -> p !! "dir_name" = Some (PStr (model_dir model));
  model_fit_footprint : forall model tr va m r m' out k,
    model_fit model tr va m = (r, m', out) ->
    under ("summaries/" +:+ model_dir model) k = false ->
    under ("checkpoints/" +:+ model_dir model) k = false -> m' !! k = m !! k
}.

Section Experiment.
Context `{FloatRepr} {Data Labels Std Feats Model : Type}
  `{Collaborators Data Labels Std Feats Model}.

(** [LabeledDatasetWithNoise(x, y, start_level, end_level, nit)] and
    [LabeledDataset(x, y)]. *)
Definition LabeledDatasetWithNoise (x : Feats) (y : Labels) (start_level : Z)
    (end_level : float) (nit : Z) : Dataset Feats Labels :=
  mkDataset x y (Some (start_level, end_level, nit)) (feats_len x).

Definition LabeledDataset (x : Feats) (y : Labels) : Dataset Feats Labels :=
  mkDataset x y None (feats_len x).

(** ['{}%'.format(err * 100)]. *)
Definition percent (err : float) : string := float_repr (PrimFloat.mul err 100) +:+ "%".

(** Lines 13-119. *)
Definition single_experiment (sigma order : Z) (sigma_noise : float) : M float :=
  let EXP_NAME := exp_name Nside (float_repr sigma_noise) order sigma in
  tr <- call (ELoadTrain sigma order) (get_training_data sigma order) ;;
  let '(x_raw_train, labels_raw_train, x_raw_std) := tr in
  te <- call (ELoadTest sigma order sigma_noise)
             (get_testing_data sigma order sigma_noise x_raw_std) ;;
  let '(x_raw_test, labels_test, _) := te in
  pre <- call EPreprocess (data_preprossing x_raw_train labels_raw_train x_raw_test sigma_noise) ;;
  let '(features_train, labels_train, features_validation, labels_validation,
        features_test) := pre in
  let training := LabeledDatasetWithNoise features_train labels_train 0 sigma_noise
                    (labels_len labels_train / 10) in
  let validation := LabeledDataset features_validation labels_validation in
  nsides <- lift (nsides_of Nside order) ;;
  print ("#sides: " +:+ py_repr_int_list nsides) ;;;
  indexes <- call (EIndexes nsides order) (nside2indexes nsides order) ;;
  params <- lift (build_params EXP_NAME nsides indexes order (ds_N training)) ;;
  model <- call (EBuildModel EXP_NAME) (models_scnn params) ;;
  rmtree_ignore_errors (summaries_dir EXP_NAME) ;;;
  rmtree_ignore_errors (checkpoints_dir EXP_NAME) ;;;
  _ <- call_fs (EFit EXP_NAME) (model_fit model training validation) ;;
  error_validation <- call EModelError (model_error model features_validation labels_validation) ;;
  print ("The validation error is " +:+ percent error_validation) ;;;
  error_test <- call EModelError (model_error model features_test labels_test) ;;
  print ("The testing error is " +:+ percent error_test) ;;;
  ret error_test.

(** ** Lemmas *)

Lemma strip_summaries (n : string) :
  strip_trailing_slash (summaries_dir n) = "summaries/" +:+ n.
Proof. unfold strip_trailing_slash. by rewrite strip_summaries_dir. Qed.

Lemma strip_checkpoints (n : string) :
  strip_trailing_slash (checkpoints_dir n) = "checkpoints/" +:+ n.
Proof. unfold strip_trailing_slash. by rewrite strip_checkpoints_dir. Qed.

(** [model.fit] changes the file system only inside the trees of the
    name the model was built with. *)
Lemma footprint_fit (P : string -> Prop) (params : Params) (model : Model) (name : string)
    (tr va : Dataset Feats Labels) (ev : Event) :
  (models_scnn params).1 = inr model -> params !! "dir_name" = Some (PStr name) ->
  (forall k, under ("summaries/" +:+ name) k = true \/ under ("checkpoints/" +:+ name) k = true ->
   P k) ->
  fs_footprint P (call_fs ev (model_fit model tr va)).
Proof.
  intros Hm Hd HP. apply models_scnn_dir in Hm. rewrite Hd in Hm. injection Hm as ->.
  apply footprint_call_fs. intros m r m' out k Hf Hk. apply (model_fit_footprint _ _ _ _ _ _ _ _ Hf).
  - destruct (under _ k) eqn:E; [|done]. destruct Hk. apply HP. by left.
  - destruct (under _ k) eqn:E; [|done]. destruct Hk. apply HP. by right.
Qed.

Ltac footprint_step :=
  match goal with
  | |- fs_footprint _ (bind (call _ _) _) => apply footprint_bind_call; intros ?a ?Ha
  | |- fs_footprint _ (bind (lift _) _) => apply footprint_bind_lift; intros ?a ?Ha
  | |- fs_footprint _ (bind _ _) => apply footprint_bind; [|intros ?]
  | |- fs_footprint _ (match ?p with _ => _ end) => destruct p
  | |- fs_footprint _ (rmtree_ignore_errors _) =>
      eapply footprint_weaken; [|apply footprint_rmtree]; intros ?k ?Hk;
      rewrite ?strip_summaries, ?strip_checkpoints in Hk; tauto
  | Hm : (models_scnn ?p).1 = inr ?model, Hp : build_params _ _ _ _ _ = inr ?p
    |- fs_footprint _ (call_fs _ (model_fit ?model _ _)) =>
      eapply (footprint_fit _ p model); [exact Hm | exact (build_params_dir_name _ _ _ _ _ _ Hp) |];
      intros ?k ?Hk; exact Hk
  | |- _ => solve [auto with deepsphere]
  end.

(** ** Theorems *)

(** C14: for an [order] outside {1, 2, 4} the training and test data are
    loaded and preprocessed (lines 20-23) before the schedule's [raise]
    (line 42): the run raises [ValueError] after three collaborator
    calls, with no file touched and nothing printed but what those three
    printed. *)
Theorem single_experiment_unsupported_loads_data (sigma order : Z) (sn : float) (w : World)
    (x : Data) (y : Labels) (std : Std) (xt : Data) (yt : Labels) (st : Std)
    (pre : Feats * Labels * Feats * Labels * Feats) (o_tr o_te o_pre : list string) :
  supported_order order = false ->
  get_training_data sigma order = (inr (x, y, std), o_tr) ->
  get_testing_data sigma order sn std = (inr (xt, yt, st), o_te) ->
  data_preprossing x y xt sn = (inr pre, o_pre) ->
  single_experiment sigma order sn w =
    (inl (ValueError "No parameters for this value of order."),
     mkWorld (fs w) (stdout w ++ o_tr ++ o_te ++ o_pre)
       (trace w ++ [ELoadTrain sigma order; ELoadTest sigma order sn; EPreprocess])).
Proof.
  intros Hs Htr Hte Hpre. destruct pre as [[[[ftr ltr] fva] lva] fte].
  unfold single_experiment.
  rewrite Htr, bind_call_inr. cbn beta iota zeta.
  rewrite Hte, bind_call_inr. cbn beta iota zeta.
  rewrite Hpre, bind_call_inr. cbn beta iota zeta.
  rewrite (nsides_of_unsupported Nside order Hs). unfold bind, lift. cbn.
  by rewrite <- !app_assoc.
Qed.

(** C15: a run whose collaborators all return: the model is built from
    the spec table's dictionary (with the exact [eval_frequency]); [fit]
    is given the file system with the two stale trees already removed, and
    the run ends with the file system [fit] leaves; the result is the test
    error; the script's own lines (the schedule and the two error
    percentages) are printed between the collaborators' output, at the
    points of the code; the collaborators are called in the order of the
    code. *)
Theorem single_experiment_run (sigma order : Z) (sn : float) (w : World)
    (x : Data) (y : Labels) (std : Std) (xt : Data) (yt : Labels) (st : Std)
    (ftr : Feats) (ltr : Labels) (fva : Feats) (lva : Labels) (fte : Feats)
    (ns : list Z) (idx : PyVal) (h : HyperTable) (model : Model) (fit : float * float * Z)
    (m' : gmap string Node) (ev et : float)
    (o_tr o_te o_pre o_idx o_model o_fit o_ev o_et : list string) :
  let name := exp_name Nside (float_repr sn) order sigma in
  get_training_data sigma order = (inr (x, y, std), o_tr) ->
  get_testing_data sigma order sn std = (inr (xt, yt, st), o_te) ->
  data_preprossing x y xt sn = (inr (ftr, ltr, fva, lva, fte), o_pre) ->
  nsides_of Nside order = inr ns ->
  nside2indexes ns order = (inr idx, o_idx) ->
  hyper_table order = Some h ->
  0 <= feats_len ftr <= eval_bound ->
  models_scnn (render_params h name ns idx
    (ht_num_epochs h * feats_len ftr / (ht_batch_size h * n_evaluations))) = (inr model, o_model) ->
  model_fit model (LabeledDatasetWithNoise ftr ltr 0 sn (labels_len ltr / 10))
    (LabeledDataset fva lva)
    (rmtree_fs (checkpoints_dir name) (rmtree_fs (summaries_dir name) (fs w))) = (inr fit, m', o_fit) ->
  model_error model fva lva = (inr ev, o_ev) ->
  model_error model fte yt = (inr et, o_et) ->
  single_experiment sigma order sn w =
    (inr et, mkWorld m'
       (stdout w ++ o_tr ++ o_te ++ o_pre ++ ["#sides: " +:+ py_repr_int_list ns] ++ o_idx ++
        o_model ++ o_fit ++ o_ev ++ ["The validation error is " +:+ percent ev] ++ o_et ++
        ["The testing error is " +:+ percent et])
       (trace w ++ [ELoadTrain sigma order; ELoadTest sigma order sn; EPreprocess;
                    EIndexes ns order; EBuildModel name; EFit name; EModelError; EModelError])).
Proof.
  intros name Htr Hte Hpre Hns Hidx Hh HN Hmodel Hfit Hev Het.
  unfold single_experiment.
  rewrite Htr, bind_call_inr. cbn beta iota zeta.
  rewrite Hte, bind_call_inr. cbn beta iota zeta.
  rewrite Hpre, bind_call_inr. cbn beta iota zeta.
  rewrite Hns, bind_lift_inr, bind_print, Hidx, bind_call_inr.
  rewrite (build_params_table _ _ _ _ _ h Hh).
  change (ds_N (LabeledDatasetWithNoise ftr ltr 0 sn (labels_len ltr / 10))) with (feats_len ftr).
  rewrite (eval_frequency_of_exact order _ h Hh HN). cbn beta iota zeta.
  rewrite bind_lift_inr. fold name. rewrite Hmodel, bind_call_inr, !bind_rmtree.
  erewrite bind_call_fs_inr by (cbn [fs set_fs]; exact Hfit).
  rewrite Hev, bind_call_inr, bind_print, Het, bind_call_inr, bind_print.
  unfold ret. cbn [fs stdout trace set_fs]. rewrite <- !app_assoc. reflexivity.
Qed.

(** A run that returns had an [order] of the table, so one NumPy
    stores as a float64. *)
Lemma single_experiment_order_float (sigma order : Z) (sn : float) (w w' : World) (r : float) :
  single_experiment sigma order sn w = (inr r, w') -> exists fo, py_float_of_int order = inr fo.
Proof.
  intros Hrun. destruct (supported_order order) eqn:Hs.
  { apply supported_order_cases in Hs as [-> | [-> | ->]]; eexists; reflexivity. }
  revert Hrun. unfold single_experiment, bind, call, call_fs, lift, print, ret, rmtree_ignore_errors.
  rewrite (nsides_of_unsupported Nside order Hs). cbn beta iota zeta.
  repeat case_match; by intros [=].
Qed.

(** A run changes the file system only inside its two trees, so only at
    paths of any [P] containing them. *)
Lemma single_experiment_footprint_within (P : string -> Prop) (sigma order : Z) (sn : float) :
  let name := exp_name Nside (float_repr sn) order sigma in
  (forall k, under ("summaries/" +:+ name) k = true \/ under ("checkpoints/" +:+ name) k = true ->
   P k) ->
  fs_footprint P (single_experiment sigma order sn).
Proof.
  intros name HP. eapply footprint_weaken; [exact HP|]. unfold single_experiment.
  repeat footprint_step.
Qed.

(** C16: whatever its outcome, a run changes the file system only inside
    its own two trees [summaries/<name>] and [checkpoints/<name>]. *)
Theorem single_experiment_footprint (sigma order : Z) (sn : float) :
  let name := exp_name Nside (float_repr sn) order sigma in
  fs_footprint (fun k => under ("summaries/" +:+ name) k = true \/
                         under ("checkpoints/" +:+ name) k = true)
    (single_experiment sigma order sn).
Proof. intros name. apply single_experiment_footprint_within. auto. Qed.

End Experiment.

(** ** Witness instances

    A test double of [scnn] (fixed data sizes, a model that is its
    dictionary, constant errors) and an exact printer of floats
    (mantissa ["p"] exponent, not CPython's shortest repr); both satisfy
    the interfaces, so the theorems above apply to them. *)

Definition exact_float_repr (x : float) : string :=
  match FloatOps.Prim2SF x with
  | S754_zero s => if s then "-0.0" else "0.0"
  | S754_infinity s => if s then "-inf" else "inf"
  | S754_nan => "nan"
  | S754_finite s m e => (if s then "-" else "") +:+ py_str_int (Zpos m) +:+ "p" +:+ py_str_int e
  end.

Ltac exact_repr_chars x :=
  unfold exact_float_repr; destruct (FloatOps.Prim2SF x) as [[]|[]| |[] m e]; try reflexivity;
  rewrite !has_char_app, !py_str_int_no_char by reflexivity; reflexivity.

Lemma exact_float_repr_no_underscore (x : float) : has_char "_" (exact_float_repr x) = false.
Proof. exact_repr_chars x. Qed.

Lemma exact_float_repr_no_slash (x : float) : has_char "/" (exact_float_repr x) = false.
Proof. exact_repr_chars x. Qed.

Definition witness_repr : FloatRepr := {|
  float_repr := exact_float_repr;
  float_repr_no_underscore := exact_float_repr_no_underscore;
  float_repr_no_slash := exact_float_repr_no_slash
|}.

(** The test double's model is its dictionary; its directory is the
    dictionary's [dir_name]. *)
Definition wit_dir (p : Params) : string :=
  match p !! "dir_name" with Some (PStr d) => d | _ => "" end.

Definition wit_models_scnn (p : Params) : Out Params :=
  match p !! "dir_name" with
  | Some (PStr _) => (inr p, ["scnn: 5 graph convolutional layers"])
  | _ => (inl (KeyError "dir_name"), [])
  end.

(** Training writes its two directories and prints its progress. *)
Definition wit_fit (p : Params) (tr va : Dataset Z Z) (m : gmap string Node) :
    res (float * float * Z) * gmap string Node * list string :=
  (inr (0.9%float, 0.1%float, 100),
   <["checkpoints/" +:+ wit_dir p := Dir]> (<["summaries/" +:+ wit_dir p := Dir]> m),
   ["step 100: loss 0.9"]).

Lemma wit_models_scnn_dir (p model : Params) :
  (wit_models_scnn p).1 = inr model -> p !! "dir_name" = Some (PStr (wit_dir model)).
Proof.
  unfold wit_models_scnn. destruct (p !! "dir_name") as [[]|] eqn:E; try discriminate.
  intros [= <-]. unfold wit_dir. by rewrite E.
Qed.

Lemma under_base (b : string) : under b b = true.
Proof. unfold under. by rewrite String.eqb_refl. Qed.

Lemma wit_fit_footprint (p : Params) tr va m r m' out k :
  wit_fit p tr va m = (r, m', out) ->
  under ("summaries/" +:+ wit_dir p) k = false -> under ("checkpoints/" +:+ wit_dir p) k = false ->
  m' !! k = m !! k.
Proof.
  intros [= _ <- _] Hs Hc.
  rewrite !lookup_insert_ne; [done | intros <-; by rewrite under_base in Hs
                             | intros <-; by rewrite under_base in Hc].
Qed.

Definition witness_scnn : Collaborators unit Z unit Z Params := {|
  get_training_data _ _ := (inr (tt, 1000, tt), []);
  get_testing_data _ _ _ _ := (inr (tt, 200, tt), []);
  data_preprossing _ _ _ _ := (inr (800, 800, 200, 200, 200), []);
  feats_len n := n;
  labels_len n := n;
  nside2indexes ns _ := (inr (py_list_int ns), []);
  models_scnn := wit_models_scnn;
  model_dir := wit_dir;
  model_fit := wit_fit;
  model_error _ _ _ := (inr 0.05%float, []);
  models_scnn_dir := wit_models_scnn_dir;
  model_fit_footprint := wit_fit_footprint
|}.

#[local] Existing Instance witness_repr.
#[local] Existing Instance witness_scnn.

Definition wit_name : string := exp_name Nside (float_repr 0.1) 2 3.

(** A working directory with stale trees of an earlier run of the same
    experiment. *)
Definition w_stale : World :=
  mkWorld (list_to_map [("results", Dir); ("results/scnn", Dir); ("summaries", Dir);
                        ("summaries/" +:+ wit_name, Dir);
                        ("summaries/" +:+ wit_name +:+ "/events.out", OtherFile);
                        ("checkpoints", Dir); ("checkpoints/" +:+ wit_name, Dir)]) [] [].

(** ** Witnesses *)

Lemma single_experiment_unsupported_loads_data_witness :
  supported_order 3 = false /\
  single_experiment 3 3 0.1 w_stale =
    (inl (ValueError "No parameters for this value of order."),
     mkWorld (fs w_stale) (stdout w_stale ++ [] ++ [] ++ [])
       (trace w_stale ++ [ELoadTrain 3 3; ELoadTest 3 3 0.1; EPreprocess])).
Proof.
  split; [reflexivity|].
  apply (single_experiment_unsupported_loads_data 3 3 0.1 w_stale tt 1000 tt tt 200 tt
           (800, 800, 200, 200, 200) [] [] []); reflexivity.
Defined.

(** From the stale trees: the stale event file is gone from what [fit]
    is given, and the run ends with the directories [fit] wrote. *)
Lemma single_experiment_run_witness :
  exists m', single_experiment 3 2 0.1 w_stale =
    (inr 0.05%float,
     mkWorld m'
       (stdout w_stale ++ ["#sides: " +:+ py_repr_int_list [1024; 512; 256; 128; 64];
                           "scnn: 5 graph convolutional layers"; "step 100: loss 0.9";
                           "The validation error is " +:+ percent 0.05;
                           "The testing error is " +:+ percent 0.05])
       (trace w_stale ++ [ELoadTrain 3 2; ELoadTest 3 2 0.1; EPreprocess;
                          EIndexes [1024; 512; 256; 128; 64] 2; EBuildModel wit_name;
                          EFit wit_name; EModelError; EModelError])) /\
    m' !! ("summaries/" +:+ wit_name +:+ "/events.out") = None /\
    m' !! ("summaries/" +:+ wit_name) = Some Dir.
Proof.
  eexists. split_and!.
  - etransitivity.
    + eapply (single_experiment_run 3 2 0.1 w_stale tt 1000 tt tt 200 tt 800 800 200 200 200
               [1024; 512; 256; 128; 64] (py_list_int [1024; 512; 256; 128; 64]) _ _
               (0.9%float, 0.1%float, 100) _ 0.05 0.05 [] [] [] []
               ["scnn: 5 graph convolutional layers"] ["step 100: loss 0.9"] [] []);
        try reflexivity; cbn [feats_len witness_scnn]; unfold eval_bound; lia.
    + reflexivity.
  - vm_compute. reflexivity.
  - vm_compute. reflexivity.
Defined.
