(* ===== verification/Cleanup.v ===== *)
(** * Stale files of an earlier run do not reach training

    [single_experiment] removes the summary and checkpoint trees of its
    experiment (lines 108-109, "Cleanup before running again") before
    [model.fit] (line 111), which resumes from whatever it finds there and
    writes new files into them.  The property is noninterference: two
    working directories that differ only inside those two trees give the
    same run, the same result, output and calls, and, once the run has
    returned, the same file system.

    The proof is relational.  [rel_run R Q m] says that [m], run from two
    worlds related by [R], returns the same result and ends in worlds
    related by [Q] of that result; it composes through [bind].  Before the
    cleanup the two worlds are related by [stale_rel] (same output and
    calls, file systems that agree outside the trees, each tree
    removable); the two [rmtree] calls make them equal; from equal worlds
    the rest of the run is the same. *)

From S2P Require Import Prelude PyCore Hyperparams Naming World Experiment.

Open Scope Z_scope.

(** ** Agreement outside a set of paths *)

(** The two trees [single_experiment] cleans for the experiment [name]. *)
Definition cleanup_trees (name k : string) : bool :=
  under ("summaries/" +:+ name) k || under ("checkpoints/" +:+ name) k.

Definition agree_outside (T : string -> bool) (m1 m2 : gmap string Node) : Prop :=
  forall k, T k = false -> m1 !! k = m2 !! k.

#[export] Instance agree_outside_equiv (T : string -> bool) : Equivalence (agree_outside T).
Proof.
  split; [by intros m k | intros m1 m2 H k Hk; by rewrite H | intros m1 m2 m3 H1 H2 k Hk].
  by rewrite H1, H2.
Qed.

(** ** Relational runs *)

Definition wrel := World -> World -> Prop.

Definition rel_run {A} (R : wrel) (Q : res A -> wrel) (m : M A) : Prop :=
  forall w1 w2, R w1 w2 -> (m w1).1 = (m w2).1 /\ Q (m w1).1 (m w1).2 (m w2).2.

Lemma rel_bind {A B} (R : wrel) (Q1 : res A -> wrel) (Q2 : res B -> wrel) (m : M A) (k : A -> M B) :
  rel_run R Q1 m -> (forall a, rel_run (Q1 (inr a)) Q2 (k a)) ->
  (forall e w1 w2, Q1 (inl e) w1 w2 -> Q2 (inl e) w1 w2) -> rel_run R Q2 (bind m k).
Proof.
  intros Hm Hk Hf w1 w2 HR. unfold bind. destruct (Hm w1 w2 HR) as [Hr HQ].
  destruct (m w1) as [r1 w1'], (m w2) as [r2 w2']; cbn in *; subst r2.
  destruct r1 as [e|a]; [split; [done | by apply Hf] | by apply Hk].
Qed.

(** A step that neither reads nor writes the file system and whose result
    and output do not depend on the world. *)
Definition oblivious {A} (m : M A) : Prop :=
  exists r out evs, forall w, m w = (r, mkWorld (fs w) (stdout w ++ out) (trace w ++ evs)).

Lemma oblivious_call {A} (ev : Event) (r : Out A) : oblivious (call ev r).
Proof. by exists r.1, r.2, [ev]. Qed.

Lemma oblivious_print (s : string) : oblivious (print s).
Proof. exists (inr tt), [s], []. intros w. unfold print. by rewrite app_nil_r. Qed.

Lemma oblivious_lift {A} (r : res A) : oblivious (lift r).
Proof. exists r, [], []. intros [m o t]. unfold lift. cbn. by rewrite !app_nil_r. Qed.

#[export] Hint Resolve oblivious_call oblivious_print oblivious_lift : deepsphere.

(** ** The two worlds of a run *)

Section Stale.
Context (name : string).

(** Before the cleanup: same output and calls, file systems that agree
    outside the two trees, and each tree a directory or absent. *)
Definition stale_rel : wrel := fun w1 w2 =>
  stdout w1 = stdout w2 /\ trace w1 = trace w2 /\
  agree_outside (cleanup_trees name) (fs w1) (fs w2) /\
  cleanable (fs w1) ("summaries/" +:+ name) /\ cleanable (fs w2) ("summaries/" +:+ name) /\
  cleanable (fs w1) ("checkpoints/" +:+ name) /\ cleanable (fs w2) ("checkpoints/" +:+ name).

(** After the run: same output and calls, file systems that agree outside
    the two trees, and equal ones when the run returned. *)
Definition same_outcome {A} (r : res A) : wrel := fun w1 w2 =>
  stdout w1 = stdout w2 /\ trace w1 = trace w2 /\
  agree_outside (cleanup_trees name) (fs w1) (fs w2) /\
  (forall a, r = inr a -> fs w1 = fs w2).

Lemma rel_oblivious {A} (m : M A) : oblivious m -> rel_run stale_rel (fun _ => stale_rel) m.
Proof.
  intros (r & out & evs & Hm) w1 w2 (Ho & Ht & Hrest). rewrite !Hm. cbn.
  split; [done|]. unfold stale_rel. cbn. by rewrite Ho, Ht.
Qed.

Lemma stale_same {A} (e : PyExc) (w1 w2 : World) :
  stale_rel w1 w2 -> same_outcome (A := A) (inl e) w1 w2.
Proof. intros (Ho & Ht & Ha & _). split_and!; [done | done | done | by intros a [=]]. Qed.

(** The two [rmtree] calls turn file systems that agree outside the trees
    into equal ones. *)
Lemma rmtree_agree (m1 m2 : gmap string Node) :
  agree_outside (cleanup_trees name) m1 m2 ->
  cleanable m1 ("summaries/" +:+ name) -> cleanable m2 ("summaries/" +:+ name) ->
  cleanable m1 ("checkpoints/" +:+ name) -> cleanable m2 ("checkpoints/" +:+ name) ->
  rmtree_fs (checkpoints_dir name) (rmtree_fs (summaries_dir name) m1) =
  rmtree_fs (checkpoints_dir name) (rmtree_fs (summaries_dir name) m2).
Proof.
  intros Ha Hs1 Hs2 Hc1 Hc2. apply map_eq. intros k.
  assert (Hdis : under ("summaries/" +:+ name) ("checkpoints/" +:+ name) = false) by reflexivity.
  destruct (under ("summaries/" +:+ name) k) eqn:Hs.
  { transitivity (@None Node); [|symmetry]; apply rmtree_fs_none, rmtree_fs_cleared;
      by rewrite strip_summaries. }
  destruct (under ("checkpoints/" +:+ name) k) eqn:Hc.
  { transitivity (@None Node); [|symmetry]; apply rmtree_fs_cleared; rewrite strip_checkpoints; try done;
      apply rmtree_fs_cleanable; by rewrite ?strip_summaries. }
  rewrite !rmtree_fs_outside by (rewrite ?strip_summaries, ?strip_checkpoints; done).
  apply Ha. unfold cleanup_trees. by rewrite Hs, Hc.
Qed.

Lemma rel_cleanup {A} (k : M A) :
  rel_run stale_rel same_outcome
    (rmtree_ignore_errors (summaries_dir name) ;;; rmtree_ignore_errors (checkpoints_dir name) ;;; k).
Proof.
  intros w1 w2 (Ho & Ht & Ha & Hs1 & Hs2 & Hc1 & Hc2).
  unfold bind, rmtree_ignore_errors, set_fs. cbn [fs stdout trace fst snd].
  rewrite (rmtree_agree (fs w1) (fs w2)), Ho, Ht by done.
  split; [done|]. split_and!; [done | done | reflexivity | done].
Qed.

End Stale.

Section Experiment.
Context `{FloatRepr} {Data Labels Std Feats Model : Type}
  `{Collaborators Data Labels Std Feats Model}.

Ltac rel_step :=
  match goal with
  | |- rel_run _ _ (bind (rmtree_ignore_errors _) _) => apply rel_cleanup
  | |- rel_run _ _ (bind _ _) =>
      eapply rel_bind; [apply rel_oblivious; auto with deepsphere | intros ? | intros ???; apply stale_same]
  | |- rel_run _ _ (match ?p with _ => _ end) => destruct p
  end.

Lemma single_experiment_rel (sigma order : Z) (sn : float) :
  rel_run (stale_rel (exp_name Nside (float_repr sn) order sigma))
    (same_outcome (exp_name Nside (float_repr sn) order sigma))
    (single_experiment sigma order sn).
Proof. unfold single_experiment. repeat rel_step. Qed.

(** C17: stale files of an earlier run have no influence.  Run from two
    working directories that differ only inside [summaries/<name>] and
    [checkpoints/<name>], each a directory or absent (the [rmtree] calls
    remove it), with the same output and calls so far, the experiment
    returns the same result or raises the same exception, prints the same
    lines, makes the same calls, leaves file systems that agree outside
    the two trees, and, when it returns, the same file system: [fit] never
    sees what was in the trees. *)
Theorem single_experiment_stale_free (sigma order : Z) (sn : float) (w1 w2 : World) :
  let name := exp_name Nside (float_repr sn) order sigma in
  stdout w1 = stdout w2 -> trace w1 = trace w2 ->
  agree_outside (cleanup_trees name) (fs w1) (fs w2) ->
  cleanable (fs w1) ("summaries/" +:+ name) -> cleanable (fs w2) ("summaries/" +:+ name) ->
  cleanable (fs w1) ("checkpoints/" +:+ name) -> cleanable (fs w2) ("checkpoints/" +:+ name) ->
  (single_experiment sigma order sn w1).1 = (single_experiment sigma order sn w2).1 /\
  stdout (single_experiment sigma order sn w1).2 = stdout (single_experiment sigma order sn w2).2 /\
  trace (single_experiment sigma order sn w1).2 = trace (single_experiment sigma order sn w2).2 /\
  agree_outside (cleanup_trees name)
    (fs (single_experiment sigma order sn w1).2) (fs (single_experiment sigma order sn w2).2) /\
  (forall et, (single_experiment sigma order sn w1).1 = inr et ->
   fs (single_experiment sigma order sn w1).2 = fs (single_experiment sigma order sn w2).2).
Proof.
  intros name Ho Ht Ha Hs1 Hs2 Hc1 Hc2.
  destruct (single_experiment_rel sigma order sn w1 w2) as [Hr HQ]; [by split_and! |].
  split; [done | exact HQ].
Qed.

End Experiment.

(** ** Witness

    The stale working directory of [Experiment] (an event file left in
    [summaries/<name>]) and the same directory with empty trees. *)

#[local] Existing Instance witness_repr.
#[local] Existing Instance witness_scnn.

Definition w_clean : World :=
  mkWorld (list_to_map [("results", Dir); ("results/scnn", Dir); ("summaries", Dir);
                        ("summaries/" +:+ wit_name, Dir);
                        ("checkpoints", Dir); ("checkpoints/" +:+ wit_name, Dir)]) [] [].

Lemma single_experiment_stale_free_witness :
  agree_outside (cleanup_trees wit_name) (fs w_stale) (fs w_clean) /\
  (single_experiment 3 2 0.1 w_stale).1 = inr 0.05%float /\
  fs (single_experiment 3 2 0.1 w_stale).2 = fs (single_experiment 3 2 0.1 w_clean).2.
Proof.
  assert (Ha : agree_outside (cleanup_trees wit_name) (fs w_stale) (fs w_clean)).
  { intros k Hk.
    assert (E : fs w_stale = <["summaries/" +:+ wit_name +:+ "/events.out" := OtherFile]> (fs w_clean))
      by (vm_compute; reflexivity).
    rewrite E, lookup_insert_ne; [done|]. intros <-. revert Hk. vm_compute. discriminate. }
  assert (Hr : (single_experiment 3 2 0.1 w_stale).1 = inr 0.05%float) by (vm_compute; reflexivity).
  destruct (single_experiment_stale_free 3 2 0.1 w_stale w_clean) as (_ & _ & _ & _ & Hfs);
    [reflexivity | reflexivity | exact Ha | left; vm_compute; reflexivity .. |].
  split_and!; [exact Ha | exact Hr | exact (Hfs 0.05%float Hr)].
Defined.
