(* ===== verification/Output.v ===== *)
(** * What the script prints

    The script writes to [sys.stdout] and never reads it back or rewinds
    it.  [out_appends m] says that the program [m] only appends lines to
    the standard output, [out_same m] that it prints nothing; both compose
    through [bind].  [print] appends its line and a collaborator what it
    prints; the file operations and [os.makedirs] print nothing.  So
    [single_experiment] only appends (its own three lines and whatever
    [scnn] prints) and [persist_result] prints nothing; [Runner] takes the
    first as a law of its experiment interface. *)

From S2P Require Import Prelude PyCore Hyperparams Naming World Persistence Experiment.

Definition out_appends {A} (m : M A) : Prop :=
  forall w, exists out, stdout (m w).2 = stdout w ++ out.

Definition out_same {A} (m : M A) : Prop := forall w, stdout (m w).2 = stdout w.

(** Unfold a primitive of the world monad and close every branch. *)
Ltac out_prim d := intros ?w; unfold d; repeat case_match; done.

Lemma out_same_appends {A} (m : M A) : out_same m -> out_appends m.
Proof. intros Hm w. exists []. by rewrite Hm, app_nil_r. Qed.

Lemma out_appends_bind {A B} (m : M A) (k : A -> M B) :
  out_appends m -> (forall a, out_appends (k a)) -> out_appends (bind m k).
Proof.
  intros Hm Hk w. unfold bind. destruct (Hm w) as [o1 Ho1].
  destruct (m w) as [[e|a] w']; cbn in Ho1; [by exists o1|].
  destruct (Hk a w') as [o2 Ho2]. exists (o1 ++ o2). by rewrite Ho2, Ho1, app_assoc.
Qed.

Lemma out_same_bind {A B} (m : M A) (k : A -> M B) :
  out_same m -> (forall a, out_same (k a)) -> out_same (bind m k).
Proof.
  intros Hm Hk w. unfold bind. specialize (Hm w).
  destruct (m w) as [[e|a] w']; cbn in Hm; [done|]. by rewrite Hk.
Qed.

Lemma out_appends_print (s : string) : out_appends (print s).
Proof. intros w. by exists [s]. Qed.

Lemma out_same_ret {A} (a : A) : out_same (ret a).
Proof. done. Qed.

Lemma out_same_lift {A} (r : res A) : out_same (lift r).
Proof. done. Qed.

Lemma out_appends_call {A} (ev : Event) (r : Out A) : out_appends (call ev r).
Proof. intros w. by exists r.2. Qed.

Lemma out_appends_call_fs {A} (ev : Event) (f : gmap string Node -> res A * gmap string Node * list string) :
  out_appends (call_fs ev f).
Proof. intros w. unfold call_fs. destruct (f (fs w)) as [[r m] out]. by exists out. Qed.

Lemma out_same_isfile (p : string) : out_same (os_path_isfile p).
Proof. out_prim os_path_isfile. Qed.

Lemma out_same_load (p key : string) : out_same (np_load_field p key).
Proof. out_prim np_load_field. Qed.

Lemma out_same_savez (file : string) (rows : list PyVal) : out_same (np_savez_data file rows).
Proof. out_prim np_savez_data. Qed.

Lemma out_same_rmtree (p : string) : out_same (rmtree_ignore_errors p).
Proof. done. Qed.

#[export] Hint Resolve out_appends_bind out_same_bind out_appends_print out_same_ret out_same_lift
  out_appends_call out_appends_call_fs out_same_isfile out_same_load out_same_savez out_same_rmtree : deepsphere.
#[export] Hint Extern 1 (out_appends _) => apply out_same_appends : deepsphere.

Lemma out_same_makedirs (p : string) : out_same (os_makedirs_exist_ok p).
Proof.
  unfold os_makedirs_exist_ok. generalize (dir_prefixes "" (split_on "/" (strip_trailing_slash p))).
  assert (Hmk : forall b d, out_same (mkdir_exist_ok b d)) by (intros b d; out_prim mkdir_exist_ok).
  intros ds. induction ds as [|d [|d' ds] IH]; cbn [mkdirs]; auto with deepsphere.
Qed.

Lemma out_same_persist_result (sigma order : Z) (sn r : float) :
  out_same (persist_result sigma order sn r).
Proof.
  unfold persist_result. apply out_same_bind; [auto with deepsphere|]. intros [].
  all: auto with deepsphere.
Qed.

Section Experiment.
Context `{FloatRepr} {Data Labels Std Feats Model : Type}
  `{Collaborators Data Labels Std Feats Model}.

Lemma out_appends_single_experiment (sigma order : Z) (sn : float) :
  out_appends (single_experiment sigma order sn).
Proof.
  unfold single_experiment.
  repeat match goal with
  | |- out_appends (bind _ _) => apply out_appends_bind; [|intros ?]
  | |- out_appends (match ?p with _ => _ end) => destruct p
  | |- _ => solve [auto with deepsphere]
  end.
Qed.

End Experiment.
