(* ===== verification/Runner.v ===== *)
(** * The main program (lines 122-145)

    The work list comes from the command line ([sigma order sigma_noise],
    read with [int] and [float]) or, without arguments, from the external
    grid generator [pgrid]; the archive directory is created with
    [os.makedirs(path, exist_ok=True)]; then each triple of the list is
    announced, run with [single_experiment] and its test error stored with
    the read-modify-rewrite of [Persistence].

    The loop is proved against two interfaces: [GridSource] (what
    [pgrid()] returns) and [ExperimentRunner], whose laws are that an
    experiment never touches a path under [results/], that it returns
    only for an [order] NumPy can store as a float64, and that it only
    appends to the standard output ([Output]).  The instance
    [single_experiment_runner] discharges them from the lemmas of
    [Experiment] and [Output] on [single_experiment] (a run that returns
    had an [order] in {1, 2, 4}), so the theorems hold of the script as
    written. *)

From S2P Require Import Prelude PyCore Hyperparams Naming World Persistence Experiment Output.

Open Scope Z_scope.

(** ** Interfaces *)

(** [pgrid()] of the external [grid] module: the triples
    [(sigma, order, sigma_noise)] of the default sweep, or the exception
    it raises.  The script unpacks every element into three fields, so the
    interface fixes their types. *)
Class GridSource := {
  pgrid : res (list (Z * Z * float))
}.

(** What the loop needs of one experiment: a program of the world monad
    returning the test error, that changes no path under [results/],
    returns only for an [order] that converts to a float64 and only
    appends to the standard output. *)
Class ExperimentRunner := {
  experiment : Z -> Z -> float -> M float;
  experiment_keeps_results : forall sigma order sn,
    fs_footprint (fun k => String.prefix "results/" k = false) (experiment sigma order sn);
  experiment_order_float : forall sigma order sn w r w',
    experiment sigma order sn w = (inr r, w') -> exists fo, py_float_of_int order = inr fo;
  experiment_output : forall sigma order sn, out_appends (experiment sigma order sn)
}.

Section Main.
Context `{FloatRepr} `{GridSource} `{ExperimentRunner}.

(** [sys.argv[i]]. *)
Definition py_argv_get (argv : list string) (i : nat) : res string :=
  match argv !! i with
  | Some a => inr a
  | None => inl (IndexError "list index out of range")
  end.

(** Lines 124-130. *)
Definition work_list (argv : list string) : M (list (Z * Z * float)) :=
  if (1 <? length argv)%nat then
    lift (a1 <-? py_argv_get argv 1 ;; sigma <-? py_int_of_str a1 ;;
          a2 <-? py_argv_get argv 2 ;; order <-? py_int_of_str a2 ;;
          a3 <-? py_argv_get argv 3 ;; sigma_noise <-? py_float_of_str a3 ;;
          inr [(sigma, order, sigma_noise)])
  else call EGrid (pgrid, []).

(** Line 136: ['Launch experiment for {}, {}, {}'.format(sigma, order, sigma_noise)]. *)
Definition launch_message (sigma order : Z) (sigma_noise : float) : string :=
  "Launch experiment for " +:+ py_str_int sigma +:+ ", " +:+ py_str_int order +:+ ", " +:+
  float_repr sigma_noise.

(** Lines 134-145. *)
Fixpoint run_grid (grid : list (Z * Z * float)) : M unit :=
  match grid with
  | [] => ret tt
  | (sigma, order, sigma_noise) :: rest =>
      print (launch_message sigma order sigma_noise) ;;;
      res_ <- experiment sigma order sigma_noise ;;
      persist_result sigma order sigma_noise res_ ;;;
      run_grid rest
  end.

(** Lines 122-145. *)
Definition main (argv : list string) : M unit :=
  grid <- work_list argv ;;
  os_makedirs_exist_ok results_path ;;;
  run_grid grid.

(** ** What the archives hold *)

(** The records of [sigma] that the runs [g] with outcomes [outs] append,
    in order: an outcome is the float64 value of [order] and the test
    error. *)
Fixpoint records (sigma : Z) (g : list (Z * Z * float)) (outs : list (float * float)) : NdArray :=
  match g, outs with
  | (s, _, sn) :: g', (fo, r) :: outs' =>
      (if s =? sigma then [[fo; sn; r]] else []) ++ records sigma g' outs'
  | _, _ => []
  end.

(** The outcome of an entry: its [order] as NumPy stores it, and a test
    error that entry's experiment returns. *)
Definition converts (e : Z * Z * float) (out : float * float) : Prop :=
  py_float_of_int e.1.2 = inr out.1 /\ exists wi wi', experiment e.1.1 e.1.2 e.2 wi = (inr out.2, wi').

(** A path [os.makedirs] may create: absent, or already a directory. *)
Definition dir_slot (m : gmap string Node) (p : string) : Prop :=
  m !! p = None \/ m !! p = Some Dir.

(** [out] is the output of a run of the experiment of the triple [e]
    that returned. *)
Definition prints (e : Z * Z * float) (out : list string) : Prop :=
  exists wi r wi', experiment e.1.1 e.1.2 e.2 wi = (inr r, wi') /\ stdout wi' = stdout wi ++ out.

(** The lines of a sweep: each launch line followed by its experiment's. *)
Definition sweep_lines (g : list (Z * Z * float)) (outs : list (list string)) : list string :=
  mjoin (zip_with (fun '(s, o, sn) out => launch_message s o sn :: out) g outs).

(** ** Lemmas *)

Lemma experiment_keeps_archive (sigma order : Z) (sn : float) (w : World) (s : Z) (rows : NdArray) :
  archive_ok w s rows -> archive_ok (experiment sigma order sn w).2 s rows.
Proof. apply archive_ok_agree, experiment_keeps_results. by rewrite npz_results_prefix. Qed.

Lemma experiment_keeps_results_dir (sigma order : Z) (sn : float) (w : World) :
  results_dir_ok w -> results_dir_ok (experiment sigma order sn w).2.
Proof. unfold results_dir_ok. rewrite experiment_keeps_results; [done | discriminate]. Qed.

Lemma records_cons_eq (sigma s o : Z) (sn fo r : float) g outs :
  records sigma ((s, o, sn) :: g) ((fo, r) :: outs) =
  (if s =? sigma then [[fo; sn; r]] else []) ++ records sigma g outs.
Proof. reflexivity. Qed.

(** The loop, from any world where the archive directory exists and every
    archive is well formed: the archives end up holding the records of a
    prefix of the grid, all of it when the loop returns. *)
Lemma run_grid_prefix (g : list (Z * Z * float)) :
  forall (w : World) (rows0 : Z -> NdArray),
  results_dir_ok w -> (forall s, archive_ok w s (rows0 s)) ->
  exists g1 outs, g1 `prefix_of` g /\ Forall2 converts g1 outs /\
    (forall s, archive_ok (run_grid g w).2 s (rows0 s ++ records s g1 outs)) /\
    ((run_grid g w).1 = inr tt -> g1 = g).
Proof.
  induction g as [|[[s o] sn] g IH]; intros w rows0 Hd Hok.
  { exists [], []. split_and!; [done | constructor | intros s; by rewrite app_nil_r | done]. }
  cbn [run_grid]. rewrite bind_print.
  set (w1 := mkWorld _ _ _).
  assert (Hd1 : results_dir_ok (experiment s o sn w1).2) by apply experiment_keeps_results_dir, Hd.
  assert (Hok1 : forall s', archive_ok (experiment s o sn w1).2 s' (rows0 s'))
    by (intros s'; apply experiment_keeps_archive, Hok).
  destruct (experiment s o sn w1) as [[e|r] w2] eqn:E; cbn [fst snd] in Hd1, Hok1.
  { rewrite (bind_inl _ _ _ _ _ E). exists [], [].
    split_and!; [apply prefix_nil | constructor | intros; by rewrite app_nil_r | done]. }
  rewrite (bind_inr _ _ _ _ _ E).
  destruct (experiment_order_float s o sn w1 r w2 E) as [fo Ho].
  destruct (persist_result_ok w2 s o sn r fo (rows0 s) Hd1 (Hok1 s) Ho)
    as (Hr & Hd3 & Hok3 & _ & Hother).
  destruct (persist_result s o sn r w2) as [res3 w3] eqn:E3; cbn [fst snd] in *. subst res3.
  rewrite (bind_inr _ _ _ _ _ E3).
  destruct (IH w3 (fun s' => rows0 s' ++ if s =? s' then [[fo; sn; r]] else []) Hd3)
    as (g1 & outs & Hpre & Hconv & Harch & Hall).
  { intros s'. destruct (Z.eqb_spec s s') as [<-|Hne]; [done|].
    rewrite app_nil_r. apply (archive_ok_agree w2); [by apply Hother | apply Hok1]. }
  exists ((s, o, sn) :: g1), ((fo, r) :: outs). split_and!.
  - by apply prefix_cons.
  - constructor; [split; [done | by exists w1, w2] | done].
  - intros s'. rewrite records_cons_eq, app_assoc. apply Harch.
  - intros Hrun. by rewrite (Hall Hrun).
Qed.

Lemma npz_results_ne_results (sigma : Z) : npz_path (results_filepath sigma) <> "results".
Proof.
  rewrite npz_results_fields. intros Heq. apply (f_equal String.length) in Heq.
  rewrite !string_length_app in Heq. cbn in Heq. lia.
Qed.

(** When both directories can be made, the call returns with the archive
    directory in place and every archive as it was. *)
Lemma makedirs_results_ok (w : World) :
  dir_slot (fs w) "results" -> dir_slot (fs w) "results/scnn" ->
  exists w1, os_makedirs_exist_ok results_path w = (inr tt, w1) /\ results_dir_ok w1 /\
    forall s, fs w1 !! npz_path (results_filepath s) = fs w !! npz_path (results_filepath s).
Proof.
  intros Hr Hs. rewrite makedirs_results_steps. unfold bind, mkdir_exist_ok.
  destruct Hr as [Hr|Hr]; rewrite Hr; cbn [fs set_fs];
    [rewrite lookup_insert_ne by discriminate|]; destruct Hs as [Hs|Hs]; rewrite Hs;
    (eexists; split; [reflexivity|]); unfold results_dir_ok; cbn [fs set_fs];
    (split; [rewrite ?lookup_insert_eq, ?lookup_insert_ne by discriminate; done|]);
    intros s; pose proof (results_dir_ne_npz s); pose proof (npz_results_ne_results s);
    by rewrite ?lookup_insert_ne by congruence.
Qed.

Lemma work_list_fs (argv : list string) (w : World) : fs (work_list argv w).2 = fs w.
Proof. unfold work_list. by destruct (1 <? length argv)%nat. Qed.

(** Three arguments that parse give one triple; further arguments are
    not read. *)
Lemma work_list_args (p a1 a2 a3 : string) (extra : list string) (s o : Z) (sn : float)
    (w : World) :
  py_int_of_str a1 = inr s -> py_int_of_str a2 = inr o -> py_float_of_str a3 = inr sn ->
  work_list (p :: a1 :: a2 :: a3 :: extra) w = (inr [(s, o, sn)], w).
Proof. intros Ha1 Ha2 Ha3. unfold work_list, lift, py_argv_get. cbn. by rewrite Ha1, Ha2, Ha3. Qed.

(** After a work list is obtained and the directories are made, [main]
    is the loop over that list. *)
Lemma main_run (argv : list string) (w w0 : World) (g : list (Z * Z * float)) :
  work_list argv w = (inr g, w0) -> dir_slot (fs w) "results" -> dir_slot (fs w) "results/scnn" ->
  exists w1, main argv w = run_grid g w1 /\ results_dir_ok w1 /\
    forall s, fs w1 !! npz_path (results_filepath s) = fs w !! npz_path (results_filepath s).
Proof.
  intros Hw Hr Hs. pose proof (work_list_fs argv w) as Hfs. rewrite Hw in Hfs. cbn in Hfs.
  rewrite <- Hfs in Hr, Hs. destruct (makedirs_results_ok w0 Hr Hs) as (w1 & Hm & Hd & Ha).
  exists w1. unfold main. rewrite (bind_inr _ _ _ _ _ Hw), (bind_inr _ _ _ _ _ Hm).
  split_and!; [done | done |]. intros s. by rewrite Ha, Hfs.
Qed.

(** A loop that returns has printed, in the order of the grid, each
    launch line followed by the output of that triple's experiment, and
    nothing else. *)
Lemma run_grid_output (g : list (Z * Z * float)) (w : World) :
  (run_grid g w).1 = inr tt ->
  exists outs, Forall2 prints g outs /\ stdout (run_grid g w).2 = stdout w ++ sweep_lines g outs.
Proof.
  revert w. induction g as [|[[s o] sn] g IH]; intros w Hok.
  { exists []. split; [constructor | by rewrite app_nil_r]. }
  cbn [run_grid] in *. rewrite bind_print in *. set (w1 := mkWorld _ _ _) in *.
  destruct (experiment_output s o sn w1) as [oe Hoe].
  destruct (experiment s o sn w1) as [[e|r] w2] eqn:E; [by rewrite (bind_inl _ _ _ _ _ E) in Hok|].
  rewrite (bind_inr _ _ _ _ _ E) in Hok |- *. cbn [snd] in Hoe.
  pose proof (out_same_persist_result s o sn r w2) as Hp.
  destruct (persist_result s o sn r w2) as [[e|[]] w3] eqn:Ep; [by rewrite (bind_inl _ _ _ _ _ Ep) in Hok|].
  rewrite (bind_inr _ _ _ _ _ Ep) in Hok |- *. cbn [snd] in Hp.
  destruct (IH w3 Hok) as (outs & Hf & Ho). exists (oe :: outs). split.
  - constructor; [by exists w1, r, w2 | done].
  - rewrite Ho, Hp, Hoe. cbn. by rewrite <- !app_assoc.
Qed.

(** A run of [main] that returns is a returning loop over its work
    list, from a world whose output is the initial one. *)
Lemma main_returns_loop (argv : list string) (w w0 : World) (g : list (Z * Z * float)) :
  work_list argv w = (inr g, w0) -> (main argv w).1 = inr tt ->
  exists w1, main argv w = run_grid g w1 /\ stdout w1 = stdout w.
Proof.
  intros Hw Hok. unfold main in *. rewrite (bind_inr _ _ _ _ _ Hw) in Hok |- *.
  pose proof (out_same_makedirs results_path w0) as Hm.
  destruct (os_makedirs_exist_ok results_path w0) as [[e|[]] w1] eqn:Em;
    [by rewrite (bind_inl _ _ _ _ _ Em) in Hok|].
  rewrite (bind_inr _ _ _ _ _ Em). exists w1. split; [done|]. cbn [snd] in Hm. rewrite Hm.
  unfold work_list, call, lift in Hw. destruct (1 <? length argv)%nat; inversion Hw; cbn;
    by rewrite ?app_nil_r.
Qed.

(** ** Theorems *)

(** C18: what a run of the script leaves in the archives, whatever its
    outcome.  From a working directory where [results/scnn] can be made
    and every archive is absent or well formed, once the work list [g] is
    obtained: each archive holds its old rows followed by the records of
    its [sigma] from a prefix of [g], in the order of [g] (each record
    [[order, sigma_noise, error]] with [order] as a float64 and [error]
    a test error that entry's experiment returns); the prefix is all of
    [g] when the script returns. *)
Theorem main_archives (argv : list string) (w w0 : World) (rows0 : Z -> NdArray)
    (g : list (Z * Z * float)) :
  work_list argv w = (inr g, w0) ->
  dir_slot (fs w) "results" -> dir_slot (fs w) "results/scnn" ->
  (forall s, archive_ok w s (rows0 s)) ->
  exists g1 outs, g1 `prefix_of` g /\ Forall2 converts g1 outs /\
    (forall s, archive_ok (main argv w).2 s (rows0 s ++ records s g1 outs)) /\
    ((main argv w).1 = inr tt -> g1 = g).
Proof.
  intros Hw Hr Hs Hok. destruct (main_run argv w w0 g Hw Hr Hs) as (w1 & -> & Hd & Hfs).
  apply run_grid_prefix; [done|]. intros s. apply (archive_ok_agree w); [apply Hfs | apply Hok].
Qed.

(** C19: the spec's scenario [sigma=3 order=2 sigma_noise=0.1]: with three
    arguments that parse (further arguments are ignored), a run that
    returns has written exactly one new record, to the archive of that
    [sigma]: [order] as a float64, [sigma_noise], and a test error the
    experiment of that triple returns; every other archive is as it was. *)
Theorem main_single_record (p a1 a2 a3 : string) (extra : list string) (s o : Z) (sn : float)
    (w w' : World) (rows0 : Z -> NdArray) :
  py_int_of_str a1 = inr s -> py_int_of_str a2 = inr o -> py_float_of_str a3 = inr sn ->
  dir_slot (fs w) "results" -> dir_slot (fs w) "results/scnn" ->
  (forall s', archive_ok w s' (rows0 s')) ->
  main (p :: a1 :: a2 :: a3 :: extra) w = (inr tt, w') ->
  exists fo r, py_float_of_int o = inr fo /\
    (exists wi wi', experiment s o sn wi = (inr r, wi')) /\
    archive_ok w' s (rows0 s ++ [[fo; sn; r]]) /\
    forall s', s' <> s -> archive_ok w' s' (rows0 s').
Proof.
  intros Ha1 Ha2 Ha3 Hr Hs Hok Hmain.
  destruct (main_run _ w w [(s, o, sn)] (work_list_args p a1 a2 a3 extra s o sn w Ha1 Ha2 Ha3) Hr Hs)
    as (w1 & Hm & Hd & Hfs).
  destruct (run_grid_prefix [(s, o, sn)] w1 rows0 Hd) as (g1 & outs & _ & Hconv & Harch & Hall).
  { intros s'. apply (archive_ok_agree w); [apply Hfs | apply Hok]. }
  rewrite <- Hm, Hmain in Harch, Hall. cbn [fst snd] in Harch, Hall.
  rewrite (Hall eq_refl) in Hconv, Harch.
  inversion Hconv as [|? [fo r] ? ? [Hfo Hrun] Hnil]; subst. inversion Hnil; subst.
  exists fo, r. split_and!; [done | done | |].
  - specialize (Harch s). by rewrite records_cons_eq, Z.eqb_refl in Harch.
  - intros s' Hne. specialize (Harch s'). rewrite records_cons_eq in Harch.
    destruct (Z.eqb_spec s s'); [congruence|]. by rewrite app_nil_r in Harch.
Qed.

(** C21: one or two arguments are not a fallback to the grid: once the
    arguments given parse as integers, indexing the missing one raises
    [IndexError] before anything is run. *)
Theorem work_list_missing_args (p a1 : string) (rest : list string) (w : World) :
  (length rest <= 1)%nat -> Forall (fun a => exists z, py_int_of_str a = inr z) (a1 :: rest) ->
  work_list (p :: a1 :: rest) w = (inl (IndexError "list index out of range"), w).
Proof.
  intros Hl Hp. apply Forall_cons in Hp as [[z1 Hz1] Hp].
  unfold work_list, lift, py_argv_get. destruct rest as [|a2 [|a3 rest]]; cbn in Hl |- *;
    [by rewrite Hz1 | | lia].
  apply Forall_cons in Hp as [[z2 Hz2] _]. by rewrite Hz1, Hz2.
Qed.

(** C24: the order of what the script prints.  When [main] returns after
    obtaining the work list [g], its standard output is what was there
    before, followed, for each triple of [g] in order, by its line
    [Launch experiment for sigma, order, sigma_noise] and then by the
    lines a returning run of that triple's experiment prints; obtaining
    the list, [os.makedirs] and the archive updates print nothing. *)
Theorem main_output (argv : list string) (w w0 : World) (g : list (Z * Z * float)) :
  work_list argv w = (inr g, w0) -> (main argv w).1 = inr tt ->
  exists outs, Forall2 prints g outs /\ stdout (main argv w).2 = stdout w ++ sweep_lines g outs.
Proof.
  intros Hw Hok. destruct (main_returns_loop argv w w0 g Hw Hok) as (w1 & Hm & Hs).
  rewrite Hm in Hok |- *. destruct (run_grid_output g w1 Hok) as (outs & Hf & Ho).
  exists outs. split; [done|]. by rewrite Ho, Hs.
Qed.

End Main.

(** ** The script as written

    [single_experiment] meets the loop's interface: it changes only its
    summary and checkpoint trees, neither of which starts with
    [results/]; it returns only for the orders 1, 2 and 4; it appends to
    the standard output. *)
#[export] Instance single_experiment_runner `{FloatRepr} {Data Labels Std Feats Model : Type}
  `{Collaborators Data Labels Std Feats Model} : ExperimentRunner.
Proof.
  refine {| experiment := single_experiment |}; intros sigma order sn;
    [| intros w r w'; apply single_experiment_order_float | apply out_appends_single_experiment].
  apply single_experiment_footprint_within.
  intros k [Hk|Hk]; apply under_prefix in Hk; revert Hk;
    [apply (prefix_exclusive "s" "r") | apply (prefix_exclusive "c" "r")]; discriminate.
Defined.

(** ** Witnesses and examples

    The test doubles of [Experiment] and a three-entry grid, run from an
    empty working directory. *)

#[local] Existing Instance witness_repr.
#[local] Existing Instance witness_scnn.

Definition wit_grid : list (Z * Z * float) := [(3, 2, 0.1%float); (5, 4, 0.2%float); (3, 1, 0.1%float)].

Definition witness_grid : GridSource := {| pgrid := inr wit_grid |}.

#[local] Existing Instance witness_grid.

Definition w_empty : World := mkWorld ∅ [] [].

Lemma w_empty_archives (s : Z) : archive_ok w_empty s [].
Proof. left. split; [apply lookup_empty | done]. Qed.

Lemma main_archives_witness :
  work_list ["prog"] w_empty = (inr wit_grid, mkWorld ∅ [] [EGrid]) /\
  exists g1 outs, g1 `prefix_of` wit_grid /\ Forall2 converts g1 outs.
Proof.
  split; [reflexivity|].
  destruct (main_archives ["prog"] w_empty (mkWorld ∅ [] [EGrid]) (fun _ => []) wit_grid)
    as (g1 & outs & Hp & Hc & _);
    [reflexivity | left; reflexivity | left; reflexivity | apply w_empty_archives |].
  by exists g1, outs.
Defined.

Lemma main_single_record_witness :
  main ["prog"; "3"; "2"; "0.1"; "extra"] w_empty
  = (inr tt, (main ["prog"; "3"; "2"; "0.1"; "extra"] w_empty).2) /\
  exists fo r, py_float_of_int 2 = inr fo /\
    archive_ok (main ["prog"; "3"; "2"; "0.1"; "extra"] w_empty).2 3 ([] ++ [[fo; 0.1%float; r]]).
Proof.
  assert (Hm : main ["prog"; "3"; "2"; "0.1"; "extra"] w_empty
               = (inr tt, (main ["prog"; "3"; "2"; "0.1"; "extra"] w_empty).2))
    by (vm_compute; reflexivity).
  split; [exact Hm|].
  destruct (main_single_record "prog" "3" "2" "0.1" ["extra"] 3 2 0.1 w_empty
                            (main ["prog"; "3"; "2"; "0.1"; "extra"] w_empty).2 (fun _ => []))
    as (fo & r & Hfo & _ & Harch & _);
    [vm_compute; reflexivity.. | left; reflexivity | left; reflexivity | apply w_empty_archives
    | exact Hm |].
  exists fo, r. split; [exact Hfo | exact Harch].
Defined.

Lemma work_list_missing_args_witness :
  (length ["2"] <= 1)%nat /\
  work_list ["prog"; "3"; "2"] w_empty = (inl (IndexError "list index out of range"), w_empty).
Proof.
  split; [cbn; lia|]. apply work_list_missing_args; [cbn; lia|].
  repeat constructor; eexists; vm_compute; reflexivity.
Defined.

Lemma main_output_witness :
  work_list ["prog"] w_empty = (inr wit_grid, mkWorld ∅ [] [EGrid]) /\ (main ["prog"] w_empty).1 = inr tt /\
  exists outs, Forall2 prints wit_grid outs.
Proof.
  assert (Hw : work_list ["prog"] w_empty = (inr wit_grid, mkWorld ∅ [] [EGrid])) by reflexivity.
  assert (Hok : (main ["prog"] w_empty).1 = inr tt) by (vm_compute; reflexivity).
  split_and!; [exact Hw | exact Hok |].
  destruct (main_output ["prog"] w_empty _ wit_grid Hw Hok) as (outs & Hf & _). by exists outs.
Defined.

(** The spec's scenario end to end: one record [[2.0, 0.1, 0.05]] in
    [results/scnn/scnn_results_list_sigma3.npz], and the default grid
    grouped by [sigma], in the grid's order. *)
Example main_scenario_example :
  archive_rows (main ["prog"; "3"; "2"; "0.1"] w_empty).2 3 = Some [[2; 0.1; 0.05]]%float /\
  archive_rows (main ["prog"] w_empty).2 3 = Some [[2; 0.1; 0.05]; [1; 0.1; 0.05]]%float /\
  archive_rows (main ["prog"] w_empty).2 5 = Some [[4; 0.2; 0.05]]%float /\
  (main ["prog"] w_empty).1 = inr tt.
Proof. split_and!; vm_compute; reflexivity. Qed.
