(* ===== verification/Loop.v ===== *)
(** * The sweep as a transition system (lines 134-145)

    The loop of the main program, one action per transition: announce
    the next triple (line 136), run its experiment (line 137), store its
    result (lines 138-145).  A configuration is the rest of the work list
    with the world, at one of the three points of the loop body, or a
    final configuration: [Done] when the list is exhausted, [Raised] when
    an exception escapes (the script catches none).

    [Runner.run_grid] follows these transitions to its outcome
    ([run_grid_star]).  The theorem is an invariant proved by rule
    induction: every configuration reachable from a world with the
    archive directory and well-formed archives, an interrupted or failed
    one included, still has them.  The experiment is the
    [ExperimentRunner] interface of [Runner]. *)

From S2P Require Import Prelude PyCore Naming World Persistence Experiment Runner.

Open Scope Z_scope.

(** ** Sequences of transitions *)

Section Sequences.
Context {A : Type} (R : A -> A -> Prop).

Inductive star : A -> A -> Prop :=
| star_refl a : star a a
| star_step a b c : R a b -> star b c -> star a c.

End Sequences.

#[export] Hint Constructors star : deepsphere.

(** ** Configurations and transitions *)

Section Loop.
Context `{FloatRepr} `{ExperimentRunner}.

Inductive conf :=
| Next (g : list (Z * Z * float)) (w : World)
| Launched (e : Z * Z * float) (g : list (Z * Z * float)) (w : World)
| Ran (e : Z * Z * float) (r : float) (g : list (Z * Z * float)) (w : World)
| Raised (x : PyExc) (w : World)
| Done (w : World).

Inductive step : conf -> conf -> Prop :=
| step_done w : step (Next [] w) (Done w)
| step_launch s o sn g w :
    step (Next ((s, o, sn) :: g) w) (Launched (s, o, sn) g (print (launch_message s o sn) w).2)
| step_run s o sn g w r w' :
    experiment s o sn w = (inr r, w') -> step (Launched (s, o, sn) g w) (Ran (s, o, sn) r g w')
| step_run_raise s o sn g w x w' :
    experiment s o sn w = (inl x, w') -> step (Launched (s, o, sn) g w) (Raised x w')
| step_persist s o sn r g w w' :
    persist_result s o sn r w = (inr tt, w') -> step (Ran (s, o, sn) r g w) (Next g w')
| step_persist_raise s o sn r g w x w' :
    persist_result s o sn r w = (inl x, w') -> step (Ran (s, o, sn) r g w) (Raised x w').

Definition conf_world (c : conf) : World :=
  match c with
  | Next _ w | Launched _ _ w | Ran _ _ _ w | Raised _ w | Done w => w
  end.

(** The final configuration of an outcome of [run_grid]. *)
Definition conf_of (o : res unit * World) : conf :=
  match o with
  | (inr _, w) => Done w
  | (inl x, w) => Raised x w
  end.

(** A configuration between an experiment and its store has an [order]
    that converts to a float64 (the experiment returned for it). *)
Definition storable (c : conf) : Prop :=
  match c with
  | Ran (_, o, _) _ _ _ => exists fo, py_float_of_int o = inr fo
  | _ => True
  end.

(** Every archive of the world is absent or well formed, and the
    archive directory exists. *)
Definition archives_wf (w : World) : Prop :=
  results_dir_ok w /\ forall s, exists rows, archive_ok w s rows.

(** ** Lemmas *)

(** [run_grid] follows the transitions to its final configuration. *)
Lemma run_grid_star (g : list (Z * Z * float)) :
  forall w, star step (Next g w) (conf_of (run_grid g w)).
Proof.
  induction g as [|[[s o] sn] g IH]; intros w; [eauto using step_done with deepsphere|].
  cbn [run_grid]. rewrite bind_print. eapply star_step; [apply step_launch|].
  set (w1 := mkWorld _ _ _).
  destruct (experiment s o sn w1) as [[x|r] w2] eqn:E.
  { rewrite (bind_inl _ _ _ _ _ E). eauto using step_run_raise with deepsphere. }
  rewrite (bind_inr _ _ _ _ _ E). eapply star_step; [by apply step_run|].
  destruct (persist_result s o sn r w2) as [[x|[]] w3] eqn:E2.
  - rewrite (bind_inl _ _ _ _ _ E2). eauto using step_persist_raise with deepsphere.
  - rewrite (bind_inr _ _ _ _ _ E2). eauto using step_persist with deepsphere.
Qed.

Lemma persist_wf (s o : Z) (sn r fo : float) (w : World) :
  py_float_of_int o = inr fo -> archives_wf w -> archives_wf (persist_result s o sn r w).2.
Proof.
  intros Ho [Hd Hok]. destruct (Hok s) as [rows Hr].
  destruct (persist_result_ok w s o sn r fo rows Hd Hr Ho) as (_ & Hd' & Hok' & _ & Hother).
  split; [done|]. intros s'. destruct (Z.eq_dec s' s) as [->|Hne]; [eauto|].
  destruct (Hok s') as [rows' Hr']. exists rows'. apply (archive_ok_agree w); [by apply Hother | done].
Qed.

Lemma experiment_wf (s o : Z) (sn : float) (w : World) :
  archives_wf w -> archives_wf (experiment s o sn w).2.
Proof.
  intros [Hd Hok]. split; [by apply experiment_keeps_results_dir|].
  intros s'. destruct (Hok s') as [rows Hr]. exists rows. by apply experiment_keeps_archive.
Qed.

Lemma step_wf (c c' : conf) :
  step c c' -> archives_wf (conf_world c) -> storable c ->
  archives_wf (conf_world c') /\ storable c'.
Proof.
  destruct 1 as [| | s o sn g w r w' E | s o sn g w x w' E | s o sn r g w w' E | s o sn r g w x w' E];
    cbn [conf_world storable]; intros Hwf Hst; try done.
  - split; [|by apply (experiment_order_float s o sn w r w')].
    pose proof (experiment_wf s o sn w Hwf) as P. by rewrite E in P.
  - pose proof (experiment_wf s o sn w Hwf) as P. by rewrite E in P.
  - destruct Hst as [fo Ho]. pose proof (persist_wf s o sn r fo w Ho Hwf) as P. by rewrite E in P.
  - destruct Hst as [fo Ho]. pose proof (persist_wf s o sn r fo w Ho Hwf) as P. by rewrite E in P.
Qed.

(** ** Theorems *)

(** C22: rule induction on the transitions: from a world whose archive
    directory exists and whose archives are absent or well formed, every
    reachable configuration, a failed one included, keeps them so: no
    outcome of an experiment or a store leaves a corrupt archive.  (A
    start between an experiment and its store must have an [order] NumPy
    stores as a float64, as every run of the loop has.) *)
Theorem loop_archives_wf (c c' : conf) :
  star step c c' -> archives_wf (conf_world c) -> storable c -> archives_wf (conf_world c').
Proof.
  induction 1 as [|a b c Hab _ IH]; [done|]. intros Hwf Hst.
  destruct (step_wf a b Hab Hwf Hst). by apply IH.
Qed.

End Loop.

(** ** Witnesses

    The script's loop ([single_experiment] behind the interface) with the
    test doubles of [Experiment], from a fresh [results/scnn]. *)

#[local] Existing Instance witness_repr.
#[local] Existing Instance witness_scnn.

Lemma w_fresh_wf : archives_wf w_fresh.
Proof.
  split; [reflexivity|]. intros s. exists []. left. split; [|done]. cbn [fs w_fresh].
  pose proof (results_dir_ne_npz s). pose proof (npz_results_ne_results s).
  rewrite !lookup_insert_ne by congruence. apply lookup_empty.
Qed.

Lemma loop_archives_wf_witness :
  archives_wf (conf_world (Next wit_grid w_fresh)) /\ storable (Next wit_grid w_fresh) /\
  archives_wf (conf_world (conf_of (run_grid wit_grid w_fresh))).
Proof.
  split_and!; [exact w_fresh_wf | exact I |].
  exact (loop_archives_wf _ _ (run_grid_star wit_grid w_fresh) w_fresh_wf I).
Defined.
