(* ===== verification/Concurrency.v ===== *)
(** * Two processes on one archive (lines 140-145, spec section 7)

    The archive update of [Persistence] is a read ([os.path.isfile] and
    [np.load], lines 140-143) followed by a rewrite ([np.savez], lines
    144-145).  Two runs of the script that store a result for the same
    [sigma] share the file system, and their four steps may interleave in
    any order.  A schedule lists which process takes its next step;
    [run_schedule] runs it against the world.

    [arun] is the abstract archive: a list of records, a read copies it,
    a write replaces it by the copy and one more record.  The concrete
    steps refine it ([run_schedule_refines]), so the outcome of every
    interleaving is computed on lists: both records are kept exactly when
    one process runs entirely before the other; otherwise the second
    writer overwrites the first one's record (the lost update the spec
    describes). *)

From stdpp Require Import list_monad.
From S2P Require Import Prelude PyCore Naming World Persistence.

Open Scope Z_scope.

(** ** The two halves of the update *)

(** Lines 140-143. *)
Definition persist_read (sigma : Z) : M (list PyVal) :=
  let filepath := results_filepath sigma in
  ex <- os_path_isfile (npz_path filepath) ;;
  (if ex then a <- np_load_field (npz_path filepath) "data" ;; ret (tolist a) else ret []).

(** Lines 144-145. *)
Definition persist_write (sigma order : Z) (sigma_noise res_ : float) (results : list PyVal) :
    M unit :=
  np_savez_data (results_filepath sigma)
    (results ++ [PList [PInt order; PFloat sigma_noise; PFloat res_]]).

(** ** Processes and schedules *)

(** The record a process stores. *)
Record Proc := mkProc { p_order : Z; p_sn : float; p_res : float }.

(** Where a process is in its update. *)
Inductive pc := Start | Loaded (results : list PyVal) | Stored.

Definition proc_step (sigma : Z) (p : Proc) (st : pc) : M pc :=
  match st with
  | Start => results <- persist_read sigma ;; ret (Loaded results)
  | Loaded results => persist_write sigma (p_order p) (p_sn p) (p_res p) results ;;; ret Stored
  | Stored => ret Stored
  end.

(** [true]: the first process steps; [false]: the second. *)
Fixpoint run_schedule (sigma : Z) (p1 p2 : Proc) (sched : list bool) (st : pc * pc) :
    M (pc * pc) :=
  match sched with
  | [] => ret st
  | true :: rest => st1 <- proc_step sigma p1 st.1 ;; run_schedule sigma p1 p2 rest (st1, st.2)
  | false :: rest => st2 <- proc_step sigma p2 st.2 ;; run_schedule sigma p1 p2 rest (st.1, st2)
  end.

(** ** The abstract archive *)

Inductive apc := AStart | ALoaded (rows : NdArray) | AStored.

Definition aproc_step (rec : list float) (arch : NdArray) (st : apc) : NdArray * apc :=
  match st with
  | AStart => (arch, ALoaded arch)
  | ALoaded rows => (rows ++ [rec], AStored)
  | AStored => (arch, AStored)
  end.

Fixpoint arun (rec1 rec2 : list float) (sched : list bool) (arch : NdArray) (st1 st2 : apc) :
    NdArray * apc * apc :=
  match sched with
  | [] => (arch, st1, st2)
  | true :: rest => let '(a, s1) := aproc_step rec1 arch st1 in arun rec1 rec2 rest a s1 st2
  | false :: rest => let '(a, s2) := aproc_step rec2 arch st2 in arun rec1 rec2 rest a st1 s2
  end.

Definition record (p : Proc) (fo : float) : list float := [fo; p_sn p; p_res p].

(** A process state and its abstraction. *)
Definition pc_rel (st : pc) (ast : apc) : Prop :=
  match st, ast with
  | Start, AStart | Stored, AStored => True
  | Loaded l, ALoaded rows => l = tolist rows /\ Forall (fun r => length r = 3%nat) rows
  | _, _ => False
  end.

Definition archive_state (w : World) (sigma : Z) (rows : NdArray) : Prop :=
  results_dir_ok w /\ archive_ok w sigma rows.

(** The final archive of an interleaving of two complete updates. *)
Definition race_rows (rows : NdArray) (r1 r2 : list float) (sched : list bool) : NdArray :=
  rows ++ if bool_decide (sched = [true; true; false; false]) then [r1; r2]
          else if bool_decide (sched = [false; false; true; true]) then [r2; r1]
          else [if bool_decide (last sched = Some true) then r1 else r2].

(** ** Lemmas *)

Lemma archive_ok_rows (w : World) (s : Z) (rows : NdArray) :
  archive_ok w s rows -> Forall (fun r => length r = 3%nat) rows.
Proof. by intros [[_ ->]|(? & _ & _ & ?)]. Qed.

Lemma persist_read_ok (w : World) (s : Z) (rows : NdArray) :
  archive_ok w s rows -> persist_read s w = (inr (tolist rows), w).
Proof.
  intros Hok. unfold persist_read, bind, os_path_isfile, np_load_field, ret.
  destruct Hok as [[Hn ->]|(arrs & Hf & Hdata & _)]; [by rewrite Hn|].
  rewrite Hf. cbn beta iota. rewrite Hf. cbn beta iota. by rewrite Hdata.
Qed.

Lemma persist_write_ok (w : World) (s o : Z) (sn r fo : float) (rows0 rows : NdArray) :
  archive_state w s rows0 -> Forall (fun r => length r = 3%nat) rows -> py_float_of_int o = inr fo ->
  let w' := set_fs (<[npz_path (results_filepath s) := NpzFile [("data", rows ++ [[fo; sn; r]])]]> (fs w)) w in
  persist_write s o sn r (tolist rows) w = (inr tt, w') /\ archive_state w' s (rows ++ [[fo; sn; r]]).
Proof.
  intros [Hd Hok] Hrows Ho w'. split.
  - apply savez_results; [done | by eapply archive_ok_not_dir | by apply np_array_2d_append].
  - unfold archive_state, results_dir_ok, archive_ok, w'. cbn [fs set_fs].
    rewrite lookup_insert_ne by (apply not_eq_sym, results_dir_ne_npz). rewrite lookup_insert_eq.
    split; [done|]. right. eexists. split_and!; [done | done |].
    apply Forall_app. split; [done | by repeat constructor].
Qed.

Lemma proc_step_refines (s : Z) (p : Proc) (fo : float) (arch : NdArray) (st : pc) (ast : apc)
    (w : World) :
  archive_state w s arch -> pc_rel st ast -> py_float_of_int (p_order p) = inr fo ->
  exists st' w', proc_step s p st w = (inr st', w') /\
    archive_state w' s (aproc_step (record p fo) arch ast).1 /\
    pc_rel st' (aproc_step (record p fo) arch ast).2.
Proof.
  intros Hst Hrel Ho. destruct st as [|l|], ast as [|rows|]; try done; cbn [aproc_step fst snd].
  - eexists _, w. split; [|split; [done|]].
    + cbn [proc_step]. by rewrite (bind_inr _ _ _ _ _ (persist_read_ok w s arch (proj2 Hst))).
    + split; [done|]. by eapply archive_ok_rows, (proj2 Hst).
  - destruct Hrel as [-> Hrows].
    destruct (persist_write_ok w s _ (p_sn p) (p_res p) fo arch rows Hst Hrows Ho) as [Hw Hst'].
    eexists _, _. split; [cbn [proc_step]; by rewrite (bind_inr _ _ _ _ _ Hw)|]. by split.
  - by exists Stored, w.
Qed.

(** Every schedule of the concrete steps follows the abstract archive. *)
Lemma run_schedule_refines (s : Z) (p1 p2 : Proc) (fo1 fo2 : float) (sched : list bool) :
  py_float_of_int (p_order p1) = inr fo1 -> py_float_of_int (p_order p2) = inr fo2 ->
  forall w arch st1 st2 ast1 ast2,
  archive_state w s arch -> pc_rel st1 ast1 -> pc_rel st2 ast2 ->
  let '(arch', ast1', ast2') := arun (record p1 fo1) (record p2 fo2) sched arch ast1 ast2 in
  exists st1' st2', (run_schedule s p1 p2 sched (st1, st2) w).1 = inr (st1', st2') /\
    archive_state (run_schedule s p1 p2 sched (st1, st2) w).2 s arch' /\
    pc_rel st1' ast1' /\ pc_rel st2' ast2'.
Proof.
  intros Ho1 Ho2. induction sched as [|[] sched IH]; intros w arch st1 st2 ast1 ast2 Hst H1 H2.
  - by exists st1, st2.
  - destruct (proc_step_refines s p1 fo1 arch st1 ast1 w Hst H1 Ho1) as (st' & w' & E & Hst' & H').
    cbn [run_schedule arun fst snd]. rewrite (bind_inr _ _ _ _ _ E).
    destruct (aproc_step _ arch ast1) as [a s1]. by apply IH.
  - destruct (proc_step_refines s p2 fo2 arch st2 ast2 w Hst H2 Ho2) as (st' & w' & E & Hst' & H').
    cbn [run_schedule arun fst snd]. rewrite (bind_inr _ _ _ _ _ E).
    destruct (aproc_step _ arch ast2) as [a s2]. by apply IH.
Qed.

(** The six interleavings of two two-step updates. *)
Lemma interleavings (sched : list bool) :
  sched ≡ₚ [true; true; false; false] ->
  sched = [true; true; false; false] \/ sched = [true; false; true; false] \/
  sched = [true; false; false; true] \/ sched = [false; true; true; false] \/
  sched = [false; true; false; true] \/ sched = [false; false; true; true].
Proof.
  intros Hp. symmetry in Hp. apply permutations_Permutation, list_elem_of_In in Hp. vm_compute in Hp.
  repeat destruct Hp as [<-|Hp]; try destruct Hp; apply (bool_decide_unpack _); reflexivity.
Qed.

(** ** Theorems *)

(** C23: two runs of the script storing a result for the same [sigma]:
    under every interleaving of their reads and rewrites, both updates
    return, and the archive ends with both records, in order, exactly
    when one update runs entirely before the other; under the four other
    interleavings it ends with the record of the last writer only: the
    first writer's result is lost. *)
Theorem race_outcome (s : Z) (p1 p2 : Proc) (fo1 fo2 : float) (w : World) (rows : NdArray)
    (sched : list bool) :
  results_dir_ok w -> archive_ok w s rows ->
  py_float_of_int (p_order p1) = inr fo1 -> py_float_of_int (p_order p2) = inr fo2 ->
  sched ≡ₚ [true; true; false; false] ->
  (run_schedule s p1 p2 sched (Start, Start) w).1 = inr (Stored, Stored) /\
  archive_ok (run_schedule s p1 p2 sched (Start, Start) w).2 s
    (race_rows rows (record p1 fo1) (record p2 fo2) sched).
Proof.
  intros Hd Hok Ho1 Ho2 Hp.
  pose proof (run_schedule_refines s p1 p2 fo1 fo2 sched Ho1 Ho2 w rows Start Start AStart AStart
                (conj Hd Hok) I I) as Hr.
  apply interleavings in Hp as [-> | [-> | [-> | [-> | [-> | ->]]]]]; cbn [arun aproc_step] in Hr;
    destruct Hr as (st1 & st2 & Hrun & [_ Harch] & H1 & H2);
    destruct st1, st2; try done; rewrite Hrun;
    split; try done; unfold race_rows; cbn [last];
    repeat case_bool_decide; try congruence; by rewrite <- ?app_assoc in Harch.
Qed.

(** ** Witness and the lost update on an example *)

Definition proc_a : Proc := mkProc 2 0.1 0.05.
Definition proc_b : Proc := mkProc 4 0.2 0.07.

Lemma race_outcome_witness :
  [true; false; true; false] ≡ₚ [true; true; false; false] /\
  archive_ok (run_schedule 3 proc_a proc_b [true; false; true; false] (Start, Start) w_fresh).2 3
    (race_rows [] (record proc_a 2) (record proc_b 4) [true; false; true; false]).
Proof.
  assert (Hp : [true; false; true; false] ≡ₚ [true; true; false; false])
    by (apply (bool_decide_unpack _); vm_compute; reflexivity).
  split; [exact Hp|].
  apply (race_outcome 3 proc_a proc_b 2 4 w_fresh [] _); try (vm_compute; reflexivity);
    [left; split; reflexivity | exact Hp].
Defined.

(** Both processes read the empty archive; the second rewrite keeps only
    its own record. *)
Example race_lost_update_example :
  archive_rows (run_schedule 3 proc_a proc_b [true; true; false; false] (Start, Start) w_fresh).2 3
    = Some [[2; 0.1; 0.05]; [4; 0.2; 0.07]]%float /\
  archive_rows (run_schedule 3 proc_a proc_b [true; false; true; false] (Start, Start) w_fresh).2 3
    = Some [[4; 0.2; 0.07]]%float.
Proof. split; vm_compute; reflexivity. Qed.
